(** * The GrafanaDashboard controller

    A shallow embedding of
    [pkg/controller/grafanadashboard/dashboard_controller.go]: the
    [Reconcile] entry point, the namespace pass [reconcileDashboards] and the
    two selector checks [isMatch] and [checkNamespaceLabels].

    The controller relies on code that lives elsewhere: the Kubernetes
    client (reads only), the label-selector library, the selector method of
    the dashboard type, the dashboard pipeline that renders a dashboard, and
    the Grafana client.  They are interfaces here.  What the pass
    mutates (the controller config, the event recorder, the Grafana server
    behind the client) is threaded explicitly as a [Store]; a trace of the
    Grafana calls is kept next to it so that calls can be counted.  Log
    output is not part of the model, but the arguments of a log call are
    still evaluated, because a nil pointer among them stops the pass. *)

From Stdlib Require Import String List ZArith Bool Lia.
Import ListNotations.
Local Open Scope string_scope.
Local Open Scope list_scope.

Set Implicit Arguments.

(** ** Go values *)

(** A Go [error], with the two classes the controller asks about
    ([errors.IsNotFound], [errors.IsConflict]). *)
Inductive error : Type :=
| ErrNotFound (text : string)
| ErrConflict (text : string)
| ErrOther (text : string).

Definition IsNotFound (e : error) : bool :=
  match e with ErrNotFound _ => true | _ => false end.

Definition IsConflict (e : error) : bool :=
  match e with ErrConflict _ => true | _ => false end.

Definition ErrorText (e : error) : string :=
  match e with ErrNotFound t | ErrConflict t | ErrOther t => t end.

(** A call that returns [(value, err)] and whose value is only read when
    [err == nil]. *)
Inductive result (A : Type) : Type :=
| Ok (a : A)
| Err (e : error).
Arguments Ok {A} a.
Arguments Err {A} e.

(** A computation that may stop with a run-time panic. *)
Inductive Outcome (A : Type) : Type :=
| Returned (a : A)
| Panicked (reason : string).
Arguments Returned {A} a.
Arguments Panicked {A} reason.

Definition bindO {A B : Type} (m : Outcome A) (k : A -> Outcome B) : Outcome B :=
  match m with
  | Returned a => k a
  | Panicked why => Panicked why
  end.

Notation "x <- m ;; k" := (bindO m (fun x => k))
  (at level 61, m at next level, right associativity).

Definition nilDereference : string :=
  "invalid memory address or nil pointer dereference".

(** [*p] for a pointer [p]. *)
Definition deref {A : Type} (p : option A) : Outcome A :=
  match p with
  | Some a => Returned a
  | None => Panicked nilDereference
  end.

(** ** Data model *)

(** [labels.Set], a map from label keys to values. *)
Definition LabelSet : Type := list (string * string).

(** Modelled from the spec: the GrafanaDashboard resource type is declared
    in pkg/apis, outside the controller file.  The controller reads [Name]
    and [Namespace]; the spec's DashboardResource adds the selector labels,
    the raw content and the computed fingerprint, and the registry entry
    built from a dashboard needs its remote identity and plugin names. *)
Record GrafanaDashboard : Type := {
  Name : string;
  Namespace : string;
  Labels : LabelSet;
  Json : string;
  Plugins : list string;
  StatusHash : string;
  StatusUID : string
}.

(** [GrafanaDashboardRef]: what the controller config remembers of a
    dashboard it has applied. *)
Record GrafanaDashboardRef : Type := {
  RefName : string;
  RefNamespace : string;
  RefUID : string;
  RefHash : string
}.

(** [v1.Namespace], of which only the labels are read. *)
Record v1Namespace : Type := {
  NsName : string;
  NsLabels : LabelSet
}.

(** The response of the Grafana API, declared next to the client.  The
    controller dereferences [Status] and [Message], so both are pointers. *)
Record GrafanaResponse : Type := {
  Status : option string;
  Message : option string
}.

(** The folder returned by [GetOrCreateNamespaceFolder]; [ID] is a pointer,
    which the controller compares with nil. *)
Record GrafanaFolderResponse : Type := {
  ID : option Z
}.

Record NamespacedName : Type := {
  ReqNamespace : string;
  ReqName : string
}.

(** [reconcile.Result]. *)
Record Result : Type := {
  Requeue : bool;
  RequeueAfter : Z
}.

(** An event sent to the recorder: the object it is about, then the
    arguments of [recorder.Event]. *)
Record Event : Type := {
  EvNamespace : string;
  EvName : string;
  EvType : string;
  EvReason : string;
  EvMessage : string
}.

(** The Kubernetes client, [client.Client].  The controller only reads
    through it: a namespace, one dashboard, the dashboards of a namespace. *)
Record KubeClient : Type := {
  GetNamespace : string -> result v1Namespace;
  GetDashboard : NamespacedName -> result GrafanaDashboard;
  ListDashboards : string -> result (list GrafanaDashboard)
}.

(** ** Collaborators *)

(** The label-selector library (k8s.io/apimachinery): [metav1.LabelSelector],
    [labels.Selector], the conversion between them, which takes a pointer and
    can fail, and the two tests on a converted selector. *)
Class LabelsAPI : Type := {
  LabelSelector : Type;
  Selector : Type;
  LabelSelectorAsSelector : option LabelSelector -> result Selector;
  Empty : Selector -> bool;
  Matches : Selector -> LabelSet -> bool
}.

(** The methods of the dashboard type (declared in pkg/apis) that the
    controller calls.  [MatchesSelectors] tests a dashboard against an array
    of label selectors; the controller receives a boolean and an error. *)
Class DashboardMethods {LA : LabelsAPI} : Type := {
  MatchesSelectors :
    GrafanaDashboard -> list LabelSelector -> bool * option error
}.

(** The dashboard pipeline: [NewDashboardPipeline(client, &dashboard)]
    followed by [ProcessDashboard(knownHash)].  The pipeline holds a pointer
    to the dashboard, so the dashboard as it is after the call is returned
    along with the payload (nil when nothing is to be sent) and the error. *)
Class DashboardPipeline : Type := {
  Payload : Type;
  ProcessDashboard :
    KubeClient -> GrafanaDashboard -> string ->
    GrafanaDashboard * option Payload * option error
}.

(** The [GrafanaClient] interface.  [Remote] is the Grafana server behind
    it: every call may change it and may answer from it. *)
Class GrafanaAPI {PL : DashboardPipeline} : Type := {
  Remote : Type;
  GrafanaClient : Type;
  NewGrafanaClient : string -> string -> string -> Z -> GrafanaClient;
  GetOrCreateNamespaceFolder :
    GrafanaClient -> string -> Remote -> result GrafanaFolderResponse * Remote;
  CreateOrUpdateDashboard :
    GrafanaClient -> Payload -> Z -> Remote -> result GrafanaResponse * Remote;
  DeleteDashboardByUID :
    GrafanaClient -> string -> Remote ->
    (GrafanaResponse * option error) * Remote
}.

(** ** The controller config (the Registry) *)

(** Modelled from the spec: the controller config (package config) is not
    part of the controller file.  The spec's Registry is a catalogue of
    applied dashboards keyed by (namespace, name), with [dashboardsIn],
    [put], [remove] and [markSynced], each idempotent, and plugin names kept
    per dashboard as auxiliary metadata.  Entries are kept in the order they
    were first added, since the pass walks them in order. *)
Record ControllerConfig : Type := {
  Dashboards : list GrafanaDashboardRef;
  PluginsOf : list (string * string * list string);
  DashboardsSynced : bool
}.

Definition sameRef (namespace name : string) (d : GrafanaDashboardRef) : bool :=
  (RefNamespace d =? namespace) && (RefName d =? name).

Definition samePlugins (namespace name : string)
    (p : string * string * list string) : bool :=
  (fst (fst p) =? namespace) && (snd (fst p) =? name).

(** Modelled from the spec: [GetDashboards(namespace)], the Registry's
    [dashboardsIn]. *)
Definition GetDashboards (c : ControllerConfig) (namespace : string)
    : list GrafanaDashboardRef :=
  filter (fun d => RefNamespace d =? namespace) (Dashboards c).

(** Modelled from the spec: the Registry's [has], the entry of a dashboard
    if there is one. *)
Definition HasDashboard (c : ControllerConfig) (namespace name : string)
    : option GrafanaDashboardRef :=
  find (sameRef namespace name) (Dashboards c).

(** The plugin names kept for a dashboard, if any are. *)
Definition HasPlugins (c : ControllerConfig) (namespace name : string)
    : option (list string) :=
  option_map snd (find (samePlugins namespace name) (PluginsOf c)).

(** [put] replaces the entry of the same (namespace, name) where it stands,
    and otherwise adds the entry at the end. *)
Fixpoint putRef (e : GrafanaDashboardRef) (l : list GrafanaDashboardRef)
    : list GrafanaDashboardRef :=
  match l with
  | [] => [e]
  | d :: l' =>
      if sameRef (RefNamespace e) (RefName e) d then e :: l'
      else d :: putRef e l'
  end.

Fixpoint putPlugins (e : string * string * list string)
    (l : list (string * string * list string))
    : list (string * string * list string) :=
  match l with
  | [] => [e]
  | p :: l' =>
      if samePlugins (fst (fst e)) (snd (fst e)) p then e :: l'
      else p :: putPlugins e l'
  end.

Definition refOf (d : GrafanaDashboard) : GrafanaDashboardRef :=
  {| RefName := Name d; RefNamespace := Namespace d;
     RefUID := StatusUID d; RefHash := StatusHash d |}.

(** Modelled from the spec: [AddDashboard], the Registry's [put]. *)
Definition AddDashboard (c : ControllerConfig) (d : GrafanaDashboard)
    : ControllerConfig :=
  {| Dashboards := putRef (refOf d) (Dashboards c);
     PluginsOf := PluginsOf c;
     DashboardsSynced := DashboardsSynced c |}.

(** Modelled from the spec: [RemoveDashboard], the Registry's [remove]. *)
Definition RemoveDashboard (c : ControllerConfig) (namespace name : string)
    : ControllerConfig :=
  {| Dashboards := filter (fun d => negb (sameRef namespace name d)) (Dashboards c);
     PluginsOf := PluginsOf c;
     DashboardsSynced := DashboardsSynced c |}.

(** Modelled from the spec: [SetPluginsFor], which refreshes the plugin
    names kept for a dashboard. *)
Definition SetPluginsFor (c : ControllerConfig) (d : GrafanaDashboard)
    : ControllerConfig :=
  {| Dashboards := Dashboards c;
     PluginsOf := putPlugins (Namespace d, Name d, Plugins d) (PluginsOf c);
     DashboardsSynced := DashboardsSynced c |}.

(** Modelled from the spec: [RemovePluginsFor]. *)
Definition RemovePluginsFor (c : ControllerConfig) (namespace name : string)
    : ControllerConfig :=
  {| Dashboards := Dashboards c;
     PluginsOf := filter (fun p => negb (samePlugins namespace name p)) (PluginsOf c);
     DashboardsSynced := DashboardsSynced c |}.

(** Modelled from the spec: [AddConfigItem(ConfigGrafanaDashboardsSynced,
    true)], the Registry's [markSynced]. *)
Definition MarkDashboardsSynced (c : ControllerConfig) : ControllerConfig :=
  {| Dashboards := Dashboards c;
     PluginsOf := PluginsOf c;
     DashboardsSynced := true |}.

(** ** Controller state *)

(** [common.ControllerState], with the fields the controller reads.  The
    selector slice and the namespace selector pointer may be nil. *)
Record ControllerState {LA : LabelsAPI} : Type := {
  GrafanaReady : bool;
  DashboardSelectors : option (list LabelSelector);
  DashboardNamespaceSelector : option LabelSelector;
  AdminUrl : string;
  AdminUsername : string;
  AdminPassword : string;
  ClientTimeout : Z
}.
Arguments ControllerState {LA}.

(** ** The controller *)

Section Controller.

Context {LA : LabelsAPI} {DM : DashboardMethods}
        {PL : DashboardPipeline} {GA : GrafanaAPI}.

(** [config.RequeueDelay], a constant of the config package. *)
Variable RequeueDelay : Z.

(** The message of the success event ([msg] in [manageSuccess]). *)
Variable msg : string.

(** The calls made on the Grafana client, in the order they were made. *)
Inductive GrafanaCall : Type :=
| CallGetOrCreateNamespaceFolder (namespace : string)
| CallCreateOrUpdateDashboard (processed : Payload) (folderId : Z)
| CallDeleteDashboardByUID (uid : string).

(** What a pass can change: the controller config, the events recorded, the
    Grafana server, and the trace of calls made to it. *)
Record Store : Type := {
  config : ControllerConfig;
  recorder : list Event;
  grafana : Remote;
  calls : list GrafanaCall
}.

(** [ReconcileGrafanaDashboard], without the fields that live in [Store]. *)
Record ReconcileGrafanaDashboard : Type := {
  client : KubeClient;
  state : ControllerState
}.

Definition withConfig (s : Store) (c : ControllerConfig) : Store :=
  {| config := c; recorder := recorder s; grafana := grafana s; calls := calls s |}.

Definition recordEvent (s : Store) (e : Event) : Store :=
  {| config := config s; recorder := recorder s ++ [e];
     grafana := grafana s; calls := calls s |}.

Definition afterCall (s : Store) (c : GrafanaCall) (g : Remote) : Store :=
  {| config := config s; recorder := recorder s;
     grafana := g; calls := calls s ++ [c] |}.

(** *** Selectors *)

(** Whether the labels satisfy one selector: it converts and it matches. *)
Definition satisfies (l : LabelSet) (selector : LabelSelector) : bool :=
  match LabelSelectorAsSelector (Some selector) with
  | Ok sel => Matches sel l
  | Err _ => false
  end.

(** Modelled from the spec: what [MatchesSelectors] answers when it returns
    no error.  The method itself is not in the controller file; the spec's
    SelectorFilter puts a resource in scope iff its labels satisfy at least
    one configured selector. *)
Definition MatchesSelectorsContract (item : GrafanaDashboard)
    (s : list LabelSelector) : Prop :=
  forall matched,
    MatchesSelectors item s = (matched, None) ->
    matched = existsb (satisfies (Labels item)) s.

(** Test if a given dashboard matches an array of label selectors. *)
Definition isMatch (st : ControllerState) (item : GrafanaDashboard) : bool :=
  match DashboardSelectors st with
  | None => false
  | Some selectors =>
      match MatchesSelectors item selectors with
      | (_, Some _) => false
      | (matched, None) => matched
      end
  end.

(** Check if the labels on a namespace match a given label selector. *)
Definition checkNamespaceLabels (r : ReconcileGrafanaDashboard)
    (dashboard : GrafanaDashboard) : bool * option error :=
  match GetNamespace (client r) (Namespace dashboard) with
  | Err err => (false, Some err)
  | Ok ns =>
      match LabelSelectorAsSelector (DashboardNamespaceSelector (state r)) with
      | Err err => (false, Some err)
      | Ok selector => (Empty selector || Matches selector (NsLabels ns), None)
      end
  end.

(** *** Outcomes *)

Definition successEvent (dashboard : GrafanaDashboard) : Event :=
  {| EvNamespace := Namespace dashboard; EvName := Name dashboard;
     EvType := "Normal"; EvReason := "Success"; EvMessage := msg |}.

Definition errorEvent (dashboard : GrafanaDashboard) (issue : error) : Event :=
  {| EvNamespace := Namespace dashboard; EvName := Name dashboard;
     EvType := "Warning"; EvReason := "ProcessingError";
     EvMessage := ErrorText issue |}.

(** Handle success case: the event, then the dashboard and its plugins are
    written to the config. *)
Definition manageSuccess (dashboard : GrafanaDashboard) (s : Store) : Store :=
  let s := recordEvent s (successEvent dashboard) in
  let s := withConfig s (AddDashboard (config s) dashboard) in
  withConfig s (SetPluginsFor (config s) dashboard).

(** Handle error case: the event; what follows it only differs in what is
    logged (nothing for a conflict). *)
Definition manageError (dashboard : GrafanaDashboard) (issue : error)
    (s : Store) : Store :=
  let s := recordEvent s (errorEvent dashboard issue) in
  if IsConflict issue then s else s.

(** Get an authenticated grafana API client. *)
Definition getClient (st : ControllerState) : result GrafanaClient :=
  let url := AdminUrl st in
  if url =? "" then Err (ErrOther "cannot get grafana admin url") else
  let username := AdminUsername st in
  if username =? "" then Err (ErrOther "invalid credentials (username)") else
  let password := AdminPassword st in
  if password =? "" then Err (ErrOther "invalid credentials (password)") else
  let duration := ClientTimeout st in
  Ok (NewGrafanaClient url username password duration).

(** *** The pass over a namespace *)

(** Check if a given dashboard (by name) is present in the list of
    dashboards in the namespace. *)
Fixpoint inNamespace (items : list GrafanaDashboard)
    (item : GrafanaDashboardRef) : bool :=
  match items with
  | [] => false
  | d :: rest =>
      if (Name d =? RefName item) && (Namespace d =? RefNamespace item)
      then true
      else inNamespace rest item
  end.

(** Returns the hash of a dashboard if it is known. *)
Fixpoint findHash (knownDashboards : list GrafanaDashboardRef)
    (item : GrafanaDashboard) : string :=
  match knownDashboards with
  | [] => ""
  | d :: rest =>
      if (Name item =? RefName d) && (Namespace item =? RefNamespace d)
      then RefHash d
      else findHash rest item
  end.

(** Dashboards to delete: dashboards that are known but not found any
    longer in the namespace.  The loop appends to [dashboardsToDelete]. *)
Fixpoint collectToDelete (items : list GrafanaDashboard)
    (knownDashboards dashboardsToDelete : list GrafanaDashboardRef)
    : list GrafanaDashboardRef :=
  match knownDashboards with
  | [] => dashboardsToDelete
  | dashboard :: rest =>
      if negb (inNamespace items dashboard)
      then collectToDelete items rest (dashboardsToDelete ++ [dashboard])
      else collectToDelete items rest dashboardsToDelete
  end.

(** Check labels only when DashboardNamespaceSelector isn't empty. *)
Definition namespaceChecked (r : ReconcileGrafanaDashboard)
    (dashboard : GrafanaDashboard) : bool * option error :=
  match DashboardNamespaceSelector (state r) with
  | None => (true, None)
  | Some _ => checkNamespaceLabels r dashboard
  end.

Definition folderIdOf (folder : GrafanaFolderResponse) : Z :=
  match ID folder with
  | None => 0%Z
  | Some id => id
  end.

(** The body of the loop that processes new and updated dashboards. *)
Definition applyDashboard (r : ReconcileGrafanaDashboard)
    (grafanaClient : GrafanaClient)
    (knownDashboards : list GrafanaDashboardRef)
    (s : Store) (dashboard : GrafanaDashboard) : Store :=
  if negb (isMatch (state r) dashboard) then s else
  let knownHash := findHash knownDashboards dashboard in
  let '(dashboard, processed, err) :=
    ProcessDashboard (client r) dashboard knownHash in
  match err with
  | Some err => manageError dashboard err s
  | None =>
  match processed with
  | None => withConfig s (SetPluginsFor (config s) dashboard)
  | Some processed =>
  match namespaceChecked r dashboard with
  | (_, Some err) => manageError dashboard err s
  | (false, None) => s
  | (true, None) =>
  let '(folder, g) :=
    GetOrCreateNamespaceFolder grafanaClient (Namespace dashboard) (grafana s) in
  let s := afterCall s (CallGetOrCreateNamespaceFolder (Namespace dashboard)) g in
  match folder with
  | Err err => manageError dashboard err s
  | Ok folder =>
  let folderId := folderIdOf folder in
  let '(submitted, g) :=
    CreateOrUpdateDashboard grafanaClient processed folderId (grafana s) in
  let s := afterCall s (CallCreateOrUpdateDashboard processed folderId) g in
  match submitted with
  | Err err => manageError dashboard err s
  | Ok _ => manageSuccess dashboard s
  end end end end end.

Definition applyDashboards (r : ReconcileGrafanaDashboard)
    (grafanaClient : GrafanaClient)
    (knownDashboards : list GrafanaDashboardRef)
    (items : list GrafanaDashboard) (s : Store) : Store :=
  fold_left (applyDashboard r grafanaClient knownDashboards) items s.

(** The route of a dashboard through the loop body down to the call that
    submits it: the dashboard is in scope, the pipeline returns it as
    [dashboard'] with a payload, its namespace is admitted, the folder is
    there, and the Grafana client answers [submitted]. *)
Definition submits (r : ReconcileGrafanaDashboard)
    (grafanaClient : GrafanaClient)
    (knownDashboards : list GrafanaDashboardRef) (s : Store)
    (dashboard dashboard' : GrafanaDashboard)
    (submitted : result GrafanaResponse) : Prop :=
  isMatch (state r) dashboard = true /\
  exists processed folder g1 g2,
    ProcessDashboard (client r) dashboard (findHash knownDashboards dashboard)
      = (dashboard', Some processed, None) /\
    namespaceChecked r dashboard' = (true, None) /\
    GetOrCreateNamespaceFolder grafanaClient (Namespace dashboard') (grafana s)
      = (Ok folder, g1) /\
    CreateOrUpdateDashboard grafanaClient processed (folderIdOf folder) g1
      = (submitted, g2).

(** The body of the loop over [dashboardsToDelete].  The status fields are
    dereferenced to build the log lines: both in the error branch, the
    message once more after it. *)
Definition deleteDashboard (grafanaClient : GrafanaClient)
    (dashboard : GrafanaDashboardRef) (s : Store) : Outcome Store :=
  let '((status, err), g) :=
    DeleteDashboardByUID grafanaClient (RefUID dashboard) (grafana s) in
  let s := afterCall s (CallDeleteDashboardByUID (RefUID dashboard)) g in
  _ <- match err with
       | Some _ =>
           _ <- deref (Status status) ;;
           _ <- deref (Message status) ;;
           Returned tt
       | None => Returned tt
       end ;;
  _ <- deref (Message status) ;;
  let s := withConfig s
    (RemovePluginsFor (config s) (RefNamespace dashboard) (RefName dashboard)) in
  let s := withConfig s
    (RemoveDashboard (config s) (RefNamespace dashboard) (RefName dashboard)) in
  Returned s.

Fixpoint deleteDashboards (grafanaClient : GrafanaClient)
    (dashboardsToDelete : list GrafanaDashboardRef) (s : Store)
    : Outcome Store :=
  match dashboardsToDelete with
  | [] => Returned s
  | dashboard :: rest =>
      s <- deleteDashboard grafanaClient dashboard s ;;
      deleteDashboards grafanaClient rest s
  end.

Definition reconcileDashboards (r : ReconcileGrafanaDashboard)
    (request : NamespacedName) (grafanaClient : GrafanaClient) (s : Store)
    : Outcome (Store * (Result * option error)) :=
  let knownDashboards := GetDashboards (config s) (ReqNamespace request) in
  match ListDashboards (client r) (ReqNamespace request) with
  | Err err => Returned (s, ({| Requeue := false; RequeueAfter := 0 |}, Some err))
  | Ok namespaceDashboards =>
      let dashboardsToDelete :=
        collectToDelete namespaceDashboards knownDashboards [] in
      let s := applyDashboards r grafanaClient knownDashboards
                 namespaceDashboards s in
      s <- deleteDashboards grafanaClient dashboardsToDelete s ;;
      let s := withConfig s (MarkDashboardsSynced (config s)) in
      Returned (s, ({| Requeue := false; RequeueAfter := 0 |}, None))
  end.

(** *** The entry point *)

Definition Reconcile (r : ReconcileGrafanaDashboard) (request : NamespacedName)
    (s : Store) : Outcome (Store * (Result * option error)) :=
  if negb (GrafanaReady (state r)) then
    Returned (s, ({| Requeue := false; RequeueAfter := 0 |}, None))
  else
  match getClient (state r) with
  | Err _ =>
      Returned (s, ({| Requeue := false; RequeueAfter := RequeueDelay |}, None))
  | Ok grafanaClient =>
  if ReqName request =? "" then reconcileDashboards r request grafanaClient s
  else
  match DashboardSelectors (state r) with
  | None =>
      Returned (s, ({| Requeue := false; RequeueAfter := RequeueDelay |}, None))
  | Some _ =>
  match GetDashboard (client r) request with
  | Err err =>
      if IsNotFound err then reconcileDashboards r request grafanaClient s
      else Returned (s, ({| Requeue := false; RequeueAfter := 0 |}, Some err))
  | Ok instance =>
      let cr := instance in
      if negb (isMatch (state r) cr) then
        Returned (s, ({| Requeue := false; RequeueAfter := 0 |}, None))
      else reconcileDashboards r request grafanaClient s
  end end end.

(** A result that asks for the request to be retried after a delay. *)
Definition delayedRequeue (res : Result) : bool :=
  (0 <? RequeueAfter res)%Z.

(** *** Conditions on the collaborators *)




(** *** Construction and triggers *)

(** [common.ControllerState{}], the zero value the reconciler starts with. *)
Definition zeroControllerState : ControllerState :=
  {| GrafanaReady := false;
     DashboardSelectors := None;
     DashboardNamespaceSelector := None;
     AdminUrl := ""; AdminUsername := ""; AdminPassword := "";
     ClientTimeout := 0 |}.

(** newReconciler returns a new reconcile.Reconciler: the client of the
    manager and the zero controller state. *)
Definition newReconciler (mgrClient : KubeClient) : ReconcileGrafanaDashboard :=
  {| client := mgrClient; state := zeroControllerState |}.

(** [sendEmptyRequest] in [add], called at every tick of the resync timer: a
    request for the namespace with an empty name.  What [Reconcile] returns
    is dropped. *)
Definition sendEmptyRequest (r : ReconcileGrafanaDashboard) (namespace : string)
    (s : Store) : Outcome Store :=
  let request := {| ReqNamespace := namespace; ReqName := "" |} in
  out <- Reconcile r request s ;;
  Returned (fst out).

End Controller.

Arguments Store {PL GA}.
Arguments GrafanaCall {PL}.

(** ** A small installation

    One instance of every collaborator, to run the controller on: selectors
    that list required labels (or are malformed), a pipeline whose
    fingerprint is the content itself, and a Grafana server that stores the
    payloads it accepts. *)

Module Demo.

Inductive DemoSelector : Type :=
| MatchLabels (required : LabelSet)
| Malformed.

Definition hasLabel (l : LabelSet) (kv : string * string) : bool :=
  existsb (fun p => (fst p =? fst kv) && (snd p =? snd kv)) l.

(** A converted selector; [None] is the selector that matches nothing, which
    is what converting a nil pointer gives. *)
Definition convert (p : option DemoSelector) : result (option LabelSet) :=
  match p with
  | None => Ok None
  | Some (MatchLabels required) => Ok (Some required)
  | Some Malformed => Err (ErrOther "invalid label selector")
  end.

#[export] Instance labels : LabelsAPI := {|
  LabelSelector := DemoSelector;
  Selector := option LabelSet;
  LabelSelectorAsSelector := convert;
  Empty := fun sel => match sel with Some [] => true | _ => false end;
  Matches := fun sel l =>
    match sel with
    | None => false
    | Some required => forallb (hasLabel l) required
    end
|}.

(** One way to write [MatchesSelectors]: the selectors are converted one
    after the other, the first that does not convert gives the error, and
    otherwise the answer is whether one of them matched. *)
Fixpoint matchesFrom (result : bool) (l : LabelSet) (s : list DemoSelector)
    : bool * option error :=
  match s with
  | [] => (result, None)
  | selector :: s' =>
      match convert (Some selector) with
      | Err err => (false, Some err)
      | Ok sel => matchesFrom (result || Matches sel l) l s'
      end
  end.

#[export] Instance methods : DashboardMethods := {|
  MatchesSelectors := fun item s => matchesFrom false (Labels item) s
|}.

(** Another way: every selector is looked at, and what was found is handed
    back together with the first error. *)
Fixpoint matchesKeeping (result : bool) (failure : option error) (l : LabelSet)
    (s : list DemoSelector) : bool * option error :=
  match s with
  | [] => (result, failure)
  | selector :: s' =>
      match convert (Some selector) with
      | Err err =>
          matchesKeeping result
            (match failure with None => Some err | Some _ => failure end) l s'
      | Ok sel => matchesKeeping (result || Matches sel l) failure l s'
      end
  end.

Definition keepingMethods : DashboardMethods := {|
  MatchesSelectors := fun item s => matchesKeeping false None (Labels item) s
|}.

Definition withStatus (d : GrafanaDashboard) (hash : string) : GrafanaDashboard :=
  {| Name := Name d; Namespace := Namespace d; Labels := Labels d;
     Json := Json d; Plugins := Plugins d;
     StatusHash := hash; StatusUID := Name d |}.

(** Empty content cannot be rendered; content equal to the known hash needs
    no update; anything else is sent as it is. *)
Definition render (_ : KubeClient) (d : GrafanaDashboard) (knownHash : string)
    : GrafanaDashboard * option string * option error :=
  if Json d =? "" then (d, None, Some (ErrOther "empty dashboard"))
  else if Json d =? knownHash then (withStatus d knownHash, None, None)
  else (withStatus d (Json d), Some (Json d), None).

#[export] Instance pipeline : DashboardPipeline := {|
  Payload := string;
  ProcessDashboard := render
|}.

Definition answer (status message : string) : GrafanaResponse :=
  {| Status := Some status; Message := Some message |}.

(** The server refuses the payload "reject", cannot delete the dashboard
    "stuck", and is unreachable for the dashboard "lost", in which case
    the client has no response to hand back. *)
#[export] Instance grafanaServer : GrafanaAPI := {|
  Remote := list string;
  GrafanaClient := string;
  NewGrafanaClient := fun url _ _ _ => url;
  GetOrCreateNamespaceFolder := fun _ namespace g =>
    (Ok {| ID := Some 7%Z |}, g);
  CreateOrUpdateDashboard := fun _ processed _ g =>
    if processed =? "reject" then (Err (ErrOther "bad request"), g)
    else (Ok (answer "success" "saved"), processed :: g);
  DeleteDashboardByUID := fun _ uid g =>
    if uid =? "stuck"
    then ((answer "error" "cannot delete", Some (ErrOther "server error")), g)
    else if uid =? "lost"
    then (({| Status := None; Message := None |},
           Some (ErrOther "connection refused")), g)
    else ((answer "success" "deleted", None), g)
|}.

Definition dashboard (namespace name : string) (l : LabelSet) (json : string)
    : GrafanaDashboard :=
  {| Name := name; Namespace := namespace; Labels := l; Json := json;
     Plugins := [(name ++ "-plugin")%string]; StatusHash := ""; StatusUID := "" |}.

Definition app : LabelSet := [("app", "grafana")].

Definition da : GrafanaDashboard := dashboard "ns1" "a" app "hash1".
Definition dc : GrafanaDashboard := dashboard "ns1" "c" app "hash3".
Definition dreject : GrafanaDashboard := dashboard "ns1" "r" app "reject".
Definition dother : GrafanaDashboard := dashboard "ns1" "o" [("app", "other")] "hash4".
Definition dstaging : GrafanaDashboard := dashboard "staging" "d" app "hash5".

(** A dashboard without content, which the pipeline cannot render. *)
Definition dempty : GrafanaDashboard := dashboard "staging" "e" app "".

Definition ref (namespace name uid hash : string) : GrafanaDashboardRef :=
  {| RefName := name; RefNamespace := namespace; RefUID := uid; RefHash := hash |}.

Definition namespaces (name : string) : result v1Namespace :=
  if name =? "ns1" then Ok {| NsName := name; NsLabels := [("env", "prod")] |}
  else if name =? "staging"
  then Ok {| NsName := name; NsLabels := [("env", "staging")] |}
  else Err (ErrNotFound "namespace not found").

Definition cluster (items : list GrafanaDashboard) : KubeClient :=
  {| GetNamespace := namespaces;
     GetDashboard := fun key =>
       match find (fun d => (Name d =? ReqName key)
                            && (Namespace d =? ReqNamespace key)) items with
       | Some d => Ok d
       | None => Err (ErrNotFound "dashboard not found")
       end;
     ListDashboards := fun namespace =>
       Ok (filter (fun d => Namespace d =? namespace) items) |}.

Definition controllerState (ready : bool)
    (selectors : option (list DemoSelector))
    (namespaceSelector : option DemoSelector) : ControllerState :=
  {| GrafanaReady := ready;
     DashboardSelectors := selectors;
     DashboardNamespaceSelector := namespaceSelector;
     AdminUrl := "http://grafana"; AdminUsername := "admin";
     AdminPassword := "secret"; ClientTimeout := 5%Z |}.

Definition reconciler (items : list GrafanaDashboard) (st : ControllerState)
    : ReconcileGrafanaDashboard :=
  {| client := cluster items; state := st |}.

Definition ready : ControllerState :=
  controllerState true (Some [MatchLabels app]) None.

Definition notReady : ControllerState :=
  controllerState false (Some [MatchLabels app]) None.

Definition prodOnly : ControllerState :=
  controllerState true (Some [MatchLabels app])
    (Some (MatchLabels [("env", "prod")])).

Definition store (known : list GrafanaDashboardRef) : Store :=
  {| config := {| Dashboards := known;
                  PluginsOf := map (fun d => (RefNamespace d, RefName d, [(RefName d ++ "-plugin")%string])) known;
                  DashboardsSynced := false |};
     recorder := []; grafana := []; calls := [] |}.

(** The second selector cannot be converted. *)
Definition malformed : ControllerState :=
  controllerState true (Some [MatchLabels app; Malformed]) None.

(** Grafana is up but the admin password has not arrived yet. *)
Definition noPassword : ControllerState :=
  {| GrafanaReady := true;
     DashboardSelectors := Some [MatchLabels app];
     DashboardNamespaceSelector := None;
     AdminUrl := "http://grafana"; AdminUsername := "admin";
     AdminPassword := ""; ClientTimeout := 5%Z |}.

(** Grafana is up but the selectors have not arrived yet. *)
Definition noSelectors : ControllerState :=
  controllerState true None None.

Definition knownA : GrafanaDashboardRef := ref "ns1" "a" "a" "hash1".
Definition knownB : GrafanaDashboardRef := ref "ns1" "b" "b" "hash2".

(** Entries of dashboards that are no longer listed: Grafana fails to delete
    the first, and cannot be reached for the second. *)
Definition knownStuck : GrafanaDashboardRef := ref "ns1" "s" "stuck" "hash6".
Definition knownLost : GrafanaDashboardRef := ref "ns1" "l" "lost" "hash7".

(** A store whose registry knows the dashboards but holds no plugins yet. *)
Definition bareStore (known : list GrafanaDashboardRef) : Store :=
  {| config := {| Dashboards := known; PluginsOf := [];
                  DashboardsSynced := false |};
     recorder := []; grafana := []; calls := [] |}.

Definition resync : NamespacedName :=
  {| ReqNamespace := "ns1"; ReqName := "" |}.

Definition delay : Z := 10.

Definition api : GrafanaClient :=
  NewGrafanaClient "http://grafana" "admin" "secret" 5.

Definition sent (processed : string) (folderId : Z) : GrafanaCall :=
  CallCreateOrUpdateDashboard (processed : Payload) folderId.

End Demo.

(** * Properties *)

Section Selectors.

Context {LA : LabelsAPI} {DM : DashboardMethods}.

(** C7.  [isMatch] returns true exactly when the selectors are there and
    [MatchesSelectors] answers true with no error.  So, where the method
    meets its contract, a dashboard with labels L is eligible iff evaluating
    the configured set S raises no error and L satisfies at least one
    selector of S; with S absent or empty, no dashboard is eligible. *)
Theorem isMatch_iff_evaluated_and_satisfied
    (st : ControllerState) (item : GrafanaDashboard) :
  (isMatch st item = true <->
   exists S, DashboardSelectors st = Some S
             /\ MatchesSelectors item S = (true, None)) /\
  (DashboardSelectors st = None -> isMatch st item = false) /\
  (forall S,
     DashboardSelectors st = Some S ->
     MatchesSelectorsContract item S ->
     (isMatch st item = true <->
      snd (MatchesSelectors item S) = None /\
      exists selector, In selector S /\ satisfies (Labels item) selector = true)
     /\ (S = [] -> isMatch st item = false)).
Proof.
  unfold isMatch. split; [|split].
  - destruct (DashboardSelectors st) as [S|].
    + destruct (MatchesSelectors item S) as [matched [e|]] eqn:E.
      * split; [discriminate|]. intros (S' & HS & HM). congruence.
      * split.
        -- intros ->. eauto.
        -- intros (S' & HS & HM). congruence.
    + split; [discriminate|]. intros (S' & HS & _). discriminate.
  - now intros ->.
  - intros S -> Hcontract.
    assert (Hiff : match MatchesSelectors item S with
                   | (_, Some _) => false
                   | (matched, None) => matched
                   end = true <->
                   snd (MatchesSelectors item S) = None /\
                   exists selector,
                     In selector S /\ satisfies (Labels item) selector = true).
    { destruct (MatchesSelectors item S) as [matched [e|]] eqn:E; simpl.
      - split; [discriminate|]. intros [H _]. discriminate.
      - rewrite (Hcontract matched E), existsb_exists. tauto. }
    split; [exact Hiff|].
    intros ->.
    destruct (MatchesSelectors item []) as [matched [e|]] eqn:E; [reflexivity|].
    apply (Hcontract matched E).
Qed.

(** C8. Namespace-level matching: when the namespace cannot be resolved the
    check returns the error; when it is resolved, an empty selector gives
    true, and any other selector gives true iff the labels of the namespace
    satisfy it. *)
Theorem checkNamespaceLabels_spec
    (r : ReconcileGrafanaDashboard) (dashboard : GrafanaDashboard) :
  (forall err,
     GetNamespace (client r) (Namespace dashboard) = Err err ->
     checkNamespaceLabels r dashboard = (false, Some err)) /\
  (forall ns selector,
     GetNamespace (client r) (Namespace dashboard) = Ok ns ->
     LabelSelectorAsSelector (DashboardNamespaceSelector (state r)) = Ok selector ->
     (Empty selector = true -> checkNamespaceLabels r dashboard = (true, None)) /\
     (Empty selector = false ->
      checkNamespaceLabels r dashboard = (Matches selector (NsLabels ns), None) /\
      (fst (checkNamespaceLabels r dashboard) = true <->
       Matches selector (NsLabels ns) = true))).
Proof.
  unfold checkNamespaceLabels. split.
  - now intros err ->.
  - intros ns selector -> ->. split; intros ->; simpl; tauto.
Qed.

End Selectors.

Section Pass.

Context {LA : LabelsAPI} {DM : DashboardMethods}
        {PL : DashboardPipeline} {GA : GrafanaAPI}.

Variable msg : string.

Lemma inNamespace_true_iff (items : list GrafanaDashboard)
    (item : GrafanaDashboardRef) :
  inNamespace items item = true <->
  exists d, In d items /\ Name d = RefName item /\ Namespace d = RefNamespace item.
Proof.
  induction items as [|d rest IH]; simpl.
  - split; [discriminate|]. intros [d [[] _]].
  - destruct ((Name d =? RefName item) && (Namespace d =? RefNamespace item)) eqn:E.
    + split; [|reflexivity]. intros _.
      apply andb_true_iff in E as [E1 E2].
      apply String.eqb_eq in E1, E2. eauto.
    + rewrite IH. split.
      * intros [d' [Hin Hd']]. eauto.
      * intros [d' [[->|Hin] [H1 H2]]]; [|eauto].
        rewrite H1, H2, !String.eqb_refl in E. discriminate.
Qed.

Lemma collectToDelete_filter (items : list GrafanaDashboard)
    (known : list GrafanaDashboardRef) :
  forall acc,
    collectToDelete items known acc
    = acc ++ filter (fun e => negb (inNamespace items e)) known.
Proof.
  induction known as [|e rest IH]; intros acc; simpl.
  - now rewrite app_nil_r.
  - destruct (negb (inNamespace items e)); rewrite IH; [|reflexivity].
    now rewrite <- app_assoc.
Qed.

(** C6. The delete set of a pass is exactly the registry entries of the
    namespace whose (namespace, name) is absent from the listing of the
    namespace, in registry order. *)
Theorem delete_set_is_known_minus_listing
    (c : ControllerConfig) (namespace : string) (items : list GrafanaDashboard) :
  collectToDelete items (GetDashboards c namespace) []
  = filter (fun e => negb (inNamespace items e)) (GetDashboards c namespace)
  /\
  forall e,
    In e (collectToDelete items (GetDashboards c namespace) []) <->
    (In e (Dashboards c) /\ RefNamespace e = namespace) /\
    ~ (exists d, In d items /\ Name d = RefName e /\ Namespace d = RefNamespace e).
Proof.
  rewrite collectToDelete_filter. simpl. split; [reflexivity|].
  intros e. rewrite filter_In. unfold GetDashboards. rewrite filter_In.
  rewrite String.eqb_eq, negb_true_iff, <- inNamespace_true_iff.
  destruct (inNamespace items e); intuition congruence.
Qed.

(** *** What one turn of the first loop leaves alone *)

Lemma manageError_frame (d : GrafanaDashboard) (e : error) (s : Store) :
  manageError d e s = recordEvent s (errorEvent d e).
Proof. unfold manageError. now destruct (IsConflict e). Qed.




(** A dashboard for which the pipeline returns no payload causes no call and
    no change to the registry entries. *)
Lemma applyDashboard_no_payload (r : ReconcileGrafanaDashboard) (c : GrafanaClient)
    (known : list GrafanaDashboardRef) (s : Store) (d : GrafanaDashboard) :
  (isMatch (state r) d = true ->
   snd (fst (ProcessDashboard (client r) d (findHash known d))) = None) ->
  calls (applyDashboard msg r c known s d) = calls s /\
  grafana (applyDashboard msg r c known s d) = grafana s /\
  Dashboards (config (applyDashboard msg r c known s d)) = Dashboards (config s).
Proof.
  unfold applyDashboard. intros H.
  destruct (isMatch (state r) d); simpl; [|auto].
  specialize (H eq_refl).
  destruct (ProcessDashboard (client r) d (findHash known d)) as [[d' p] e].
  simpl in H. subst p.
  destruct e as [e|]; [rewrite manageError_frame|]; simpl; auto.
Qed.

Lemma applyDashboards_no_payload (r : ReconcileGrafanaDashboard) (c : GrafanaClient)
    (known : list GrafanaDashboardRef) (items : list GrafanaDashboard) :
  (forall d, In d items -> isMatch (state r) d = true ->
     snd (fst (ProcessDashboard (client r) d (findHash known d))) = None) ->
  forall s,
    calls (applyDashboards msg r c known items s) = calls s /\
    grafana (applyDashboards msg r c known items s) = grafana s /\
    Dashboards (config (applyDashboards msg r c known items s))
    = Dashboards (config s).
Proof.
  induction items as [|d rest IH]; intros H s; simpl; [auto|].
  destruct (applyDashboard_no_payload r c known s d) as (H1 & H2 & H3).
  { apply H. now left. }
  destruct (IH (fun d' Hin => H d' (or_intror Hin))
               (applyDashboard msg r c known s d)) as (K1 & K2 & K3).
  unfold applyDashboards in *. simpl. rewrite K1, K2, K3. auto.
Qed.

(** C10. When evaluating the selectors against a dashboard returns an error,
    [isMatch] returns false whatever boolean comes with the error, and the
    pass skips the dashboard: no event is recorded for it and nothing else
    changes. *)
Theorem selector_error_skips_dashboard
    (r : ReconcileGrafanaDashboard) (c : GrafanaClient)
    (known : list GrafanaDashboardRef) (s : Store)
    (item : GrafanaDashboard) (S : list LabelSelector)
    (matched : bool) (err : error) :
  DashboardSelectors (state r) = Some S ->
  MatchesSelectors item S = (matched, Some err) ->
  isMatch (state r) item = false /\
  applyDashboard msg r c known s item = s.
Proof.
  intros HS Herr.
  assert (H : isMatch (state r) item = false).
  { unfold isMatch. now rewrite HS, Herr. }
  split; [assumption|]. unfold applyDashboard. now rewrite H.
Qed.

(** The delete set holds no entry of a dashboard that is listed. *)
Lemma listed_not_in_delete_set (items : list GrafanaDashboard)
    (known : list GrafanaDashboardRef) (d : GrafanaDashboard)
    (e : GrafanaDashboardRef) :
  In d items -> RefName e = Name d -> RefNamespace e = Namespace d ->
  ~ In e (collectToDelete items known []).
Proof.
  intros Hin Hn Hns. rewrite collectToDelete_filter. simpl.
  rewrite filter_In, negb_true_iff. intros [_ H].
  assert (K : inNamespace items e = true); [|congruence].
  apply inNamespace_true_iff. exists d. auto.
Qed.

(** C9.  With a namespace selector configured, a listed dashboard whose
    namespace does not match it causes no call to Grafana and no change to
    the registry entries, and no entry of it is in the delete set.  Its turn
    changes nothing at all when the pipeline returned a payload, which is
    when the namespace check is reached; before the check, a nil payload has
    its plugins refreshed and a pipeline error has its Warning event
    recorded. *)
Theorem namespace_mismatch_turn
    (r : ReconcileGrafanaDashboard) (c : GrafanaClient)
    (known : list GrafanaDashboardRef) (items : list GrafanaDashboard)
    (s : Store) (d : GrafanaDashboard) :
  DashboardNamespaceSelector (state r) <> None ->
  checkNamespaceLabels r
    (fst (fst (ProcessDashboard (client r) d (findHash known d)))) = (false, None) ->
  In d items ->
  (calls (applyDashboard msg r c known s d) = calls s /\
   grafana (applyDashboard msg r c known s d) = grafana s /\
   Dashboards (config (applyDashboard msg r c known s d)) = Dashboards (config s)) /\
  (forall e, RefName e = Name d -> RefNamespace e = Namespace d ->
     ~ In e (collectToDelete items known [])) /\
  (forall d' processed err,
     ProcessDashboard (client r) d (findHash known d) = (d', processed, err) ->
     applyDashboard msg r c known s d
     = if isMatch (state r) d then
         match err, processed with
         | Some issue, _ =>
             recordEvent s
               {| EvNamespace := Namespace d'; EvName := Name d';
                  EvType := "Warning"; EvReason := "ProcessingError";
                  EvMessage := ErrorText issue |}
         | None, None => withConfig s (SetPluginsFor (config s) d')
         | None, Some _ => s
         end
       else s).
Proof.
  intros Hsel Hcheck Hin.
  assert (Hturn : forall d' processed err,
    ProcessDashboard (client r) d (findHash known d) = (d', processed, err) ->
    applyDashboard msg r c known s d
    = if isMatch (state r) d then
        match err, processed with
        | Some issue, _ =>
            recordEvent s
              {| EvNamespace := Namespace d'; EvName := Name d';
                 EvType := "Warning"; EvReason := "ProcessingError";
                 EvMessage := ErrorText issue |}
        | None, None => withConfig s (SetPluginsFor (config s) d')
        | None, Some _ => s
        end
      else s).
  { intros d' p e HP. unfold applyDashboard.
    destruct (isMatch (state r) d); simpl; [|reflexivity].
    rewrite HP in *. simpl in Hcheck.
    destruct e as [e|]; [now rewrite manageError_frame|].
    destruct p as [p|]; [|reflexivity].
    unfold namespaceChecked.
    destruct (DashboardNamespaceSelector (state r)); [|congruence].
    now rewrite Hcheck. }
  split; [|split; [|exact Hturn]].
  - destruct (ProcessDashboard (client r) d (findHash known d)) as [[d' p] e] eqn:HP.
    rewrite (Hturn d' p e eq_refl).
    destruct (isMatch (state r) d); [|auto].
    destruct e as [e|]; [auto|]. destruct p; auto.
  - intros e Hn Hns. now apply listed_not_in_delete_set with (d := d).
Qed.


End Pass.

Section Registry.

(** Looking an entry up after a [put]. *)
Lemma find_putRef (namespace name : string) (e : GrafanaDashboardRef)
    (l : list GrafanaDashboardRef) :
  find (sameRef namespace name) (putRef e l)
  = if sameRef namespace name e then Some e
    else find (sameRef namespace name) l.
Proof.
  induction l as [|d l IH]; simpl.
  - now destruct (sameRef namespace name e).
  - destruct (sameRef (RefNamespace e) (RefName e) d) eqn:E; simpl.
    + assert (K : sameRef namespace name d = sameRef namespace name e).
      { unfold sameRef in *. apply andb_true_iff in E as [E1 E2].
        apply String.eqb_eq in E1, E2. now rewrite E1, E2. }
      rewrite K. now destruct (sameRef namespace name e).
    + rewrite IH. destruct (sameRef namespace name d) eqn:D; [|reflexivity].
      destruct (sameRef namespace name e) eqn:F; [|reflexivity].
      unfold sameRef in *.
      apply andb_true_iff in D as [D1 D2]. apply andb_true_iff in F as [F1 F2].
      apply String.eqb_eq in D1, D2, F1, F2.
      rewrite D1, D2, F1, F2, !String.eqb_refl in E. discriminate.
Qed.


(** The Registry's [put] is idempotent. *)
Lemma putRef_idempotent (e : GrafanaDashboardRef) (l : list GrafanaDashboardRef) :
  putRef e (putRef e l) = putRef e l.
Proof.
  assert (R : sameRef (RefNamespace e) (RefName e) e = true).
  { unfold sameRef. now rewrite !String.eqb_refl. }
  induction l as [|d l IH]; simpl.
  - now rewrite R.
  - destruct (sameRef (RefNamespace e) (RefName e) d) eqn:E; simpl.
    + now rewrite R.
    + now rewrite E, IH.
Qed.

Lemma find_filter_out {A : Type} (p : A -> bool) (l : list A) :
  find p (filter (fun x => negb (p x)) l) = None.
Proof.
  induction l as [|x l IH]; simpl; [reflexivity|].
  destruct (p x) eqn:E; simpl; [assumption|]. now rewrite E.
Qed.

Lemma find_filter_none {A : Type} (p q : A -> bool) (l : list A) :
  find p l = None -> find p (filter q l) = None.
Proof.
  induction l as [|x l IH]; simpl; [reflexivity|].
  destruct (p x) eqn:E; [discriminate|]. intros H.
  destruct (q x); simpl; [rewrite E|]; auto.
Qed.



Lemma HasDashboard_RemoveDashboard (c : ControllerConfig) (namespace name : string) :
  HasDashboard (RemoveDashboard c namespace name) namespace name = None.
Proof. unfold HasDashboard, RemoveDashboard. simpl. apply find_filter_out. Qed.

Lemma HasPlugins_RemovePluginsFor (c : ControllerConfig) (namespace name : string) :
  HasPlugins (RemovePluginsFor c namespace name) namespace name = None.
Proof.
  unfold HasPlugins, RemovePluginsFor. simpl. now rewrite find_filter_out.
Qed.

End Registry.

Section Isolation.

Context {LA : LabelsAPI} {DM : DashboardMethods}
        {PL : DashboardPipeline} {GA : GrafanaAPI}.

Variable msg : string.

(** A dashboard that is submitted ends in [manageSuccess] or [manageError],
    according to the answer, in the store as the two calls left it. *)
Lemma applyDashboard_submits (r : ReconcileGrafanaDashboard) (c : GrafanaClient)
    (known : list GrafanaDashboardRef) (s : Store) (d d' : GrafanaDashboard)
    (submitted : result GrafanaResponse) :
  submits r c known s d d' submitted ->
  exists s2,
    config s2 = config s /\ recorder s2 = recorder s /\
    applyDashboard msg r c known s d
    = match submitted with
      | Ok _ => manageSuccess msg d' s2
      | Err err => manageError d' err s2
      end.
Proof.
  intros (Hm & p & folder & g1 & g2 & HP & Hns & Hf & Hc).
  unfold applyDashboard. rewrite Hm. simpl. rewrite HP, Hns, Hf. simpl.
  rewrite Hc.
  eexists (afterCall (afterCall s _ g1) _ g2).
  split; [reflexivity|]. split; [reflexivity|].
  destruct submitted; reflexivity.
Qed.

(** The first loop never drops a registry entry. *)
Lemma applyDashboard_keeps_entries (r : ReconcileGrafanaDashboard)
    (c : GrafanaClient) (known : list GrafanaDashboardRef) (s : Store)
    (d : GrafanaDashboard) (namespace name : string) :
  HasDashboard (config s) namespace name <> None ->
  HasDashboard (config (applyDashboard msg r c known s d)) namespace name <> None.
Proof.
  intros H. unfold applyDashboard.
  destruct (isMatch (state r) d); simpl; [|assumption].
  destruct (ProcessDashboard (client r) d (findHash known d)) as [[d' p] e].
  destruct e as [e|]; [now rewrite manageError_frame|].
  destruct p as [p|]; [|assumption].
  destruct (namespaceChecked r d') as [[|] [e|]];
    try (now rewrite manageError_frame); try assumption.
  destruct (GetOrCreateNamespaceFolder c (Namespace d') (grafana s)) as [[folder|e] g1];
    [|now rewrite manageError_frame].
  simpl.
  destruct (CreateOrUpdateDashboard c p (folderIdOf folder) g1) as [[resp|e] g2];
    [|now rewrite manageError_frame].
  simpl. unfold HasDashboard in *. simpl. rewrite find_putRef.
  now destruct (sameRef namespace name (refOf d')).
Qed.

Lemma applyDashboards_keeps_entries (r : ReconcileGrafanaDashboard)
    (c : GrafanaClient) (known : list GrafanaDashboardRef)
    (items : list GrafanaDashboard) (namespace name : string) :
  forall s,
    HasDashboard (config s) namespace name <> None ->
    HasDashboard (config (applyDashboards msg r c known items s)) namespace name
    <> None.
Proof.
  induction items as [|d rest IH]; intros s H; simpl; [assumption|].
  apply IH. now apply applyDashboard_keeps_entries.
Qed.


End Isolation.

Section Deletion.

Context {LA : LabelsAPI} {DM : DashboardMethods}
        {PL : DashboardPipeline} {GA : GrafanaAPI}.

Variable msg : string.

(** With a status whose fields are set, one turn of the delete loop makes
    the call and then removes the entry and its plugins, whether or not the
    call returned an error. *)
Lemma deleteDashboard_returns (c : GrafanaClient) (d : GrafanaDashboardRef)
    (s : Store) :
  Status (fst (fst (DeleteDashboardByUID c (RefUID d) (grafana s)))) <> None ->
  Message (fst (fst (DeleteDashboardByUID c (RefUID d) (grafana s)))) <> None ->
  exists s',
    deleteDashboard c d s = Returned s' /\
    calls s' = calls s ++ [CallDeleteDashboardByUID (RefUID d)] /\
    config s'
    = RemoveDashboard (RemovePluginsFor (config s) (RefNamespace d) (RefName d))
        (RefNamespace d) (RefName d).
Proof.
  unfold deleteDashboard.
  destruct (DeleteDashboardByUID c (RefUID d) (grafana s)) as [[status e] g].
  simpl. intros HS HM.
  destruct (Status status) as [st|]; [|congruence].
  destruct (Message status) as [m|]; [|congruence].
  destruct e; simpl; eexists; repeat split.
Qed.

Lemma deleteDashboards_returns (c : GrafanaClient) (l : list GrafanaDashboardRef) :
  forall s,
    (forall d g, In d l ->
       Status (fst (fst (DeleteDashboardByUID c (RefUID d) g))) <> None /\
       Message (fst (fst (DeleteDashboardByUID c (RefUID d) g))) <> None) ->
    exists s',
      deleteDashboards c l s = Returned s' /\
      calls s' = calls s ++ map (fun d => CallDeleteDashboardByUID (RefUID d)) l /\
      (forall namespace name,
         HasDashboard (config s) namespace name = None ->
         HasDashboard (config s') namespace name = None) /\
      (forall namespace name,
         HasPlugins (config s) namespace name = None ->
         HasPlugins (config s') namespace name = None) /\
      (forall d, In d l ->
         HasDashboard (config s') (RefNamespace d) (RefName d) = None /\
         HasPlugins (config s') (RefNamespace d) (RefName d) = None).
Proof.
  induction l as [|d rest IH]; intros s H; simpl.
  - exists s. rewrite app_nil_r. repeat split; auto; contradiction.
  - destruct (H d (grafana s) (or_introl eq_refl)) as [HS HM].
    destruct (deleteDashboard_returns c d s HS HM) as (s1 & E1 & C1 & K1).
    rewrite E1. simpl.
    destruct (IH s1 (fun d' g Hin => H d' g (or_intror Hin)))
      as (s' & E & C & Keep & KeepP & Gone).
    exists s'. split; [assumption|]. split.
    { rewrite C, C1, <- app_assoc. reflexivity. }
    assert (D1 : forall namespace name,
               HasDashboard (config s) namespace name = None ->
               HasDashboard (config s1) namespace name = None).
    { intros namespace name. rewrite K1. unfold HasDashboard. simpl.
      apply find_filter_none. }
    assert (P1 : forall namespace name,
               HasPlugins (config s) namespace name = None ->
               HasPlugins (config s1) namespace name = None).
    { intros namespace name. rewrite K1. unfold HasPlugins. simpl.
      destruct (find (samePlugins namespace name) (PluginsOf (config s))) eqn:F;
        [discriminate|].
      intros _. now rewrite find_filter_none. }
    split; [auto|]. split; [auto|].
    intros d0 [<-|Hin]; [|now apply Gone].
    split.
    + apply Keep. rewrite K1. apply HasDashboard_RemoveDashboard.
    + apply KeepP. rewrite K1. unfold RemoveDashboard. simpl.
      apply HasPlugins_RemovePluginsFor.
Qed.

(** C1, as the code has it.  In a pass where the delete calls hand back a
    status with its fields set, exactly one delete call is made for every
    entry of the delete set, in order, and every such entry and its plugins
    are gone from the config afterwards: also the entries whose delete call
    returned an error. *)
Theorem delete_set_entries_are_removed_even_on_failure
    (r : ReconcileGrafanaDashboard) (c : GrafanaClient)
    (request : NamespacedName) (items : list GrafanaDashboard) (s : Store) :
  let known := GetDashboards (config s) (ReqNamespace request) in
  let dashboardsToDelete := collectToDelete items known [] in
  let applied := applyDashboards msg r c known items s in
  ListDashboards (client r) (ReqNamespace request) = Ok items ->
  (forall d g, In d dashboardsToDelete ->
     Status (fst (fst (DeleteDashboardByUID c (RefUID d) g))) <> None /\
     Message (fst (fst (DeleteDashboardByUID c (RefUID d) g))) <> None) ->
  exists s',
    reconcileDashboards msg r request c s
    = Returned (s', ({| Requeue := false; RequeueAfter := 0 |}, None)) /\
    calls s'
    = calls applied
      ++ map (fun d => CallDeleteDashboardByUID (RefUID d)) dashboardsToDelete /\
    forall d, In d dashboardsToDelete ->
      HasDashboard (config s') (RefNamespace d) (RefName d) = None /\
      HasPlugins (config s') (RefNamespace d) (RefName d) = None.
Proof.
  intros known dashboardsToDelete applied Hlist Hstatus.
  unfold reconcileDashboards. rewrite Hlist.
  fold known. fold dashboardsToDelete. fold applied.
  destruct (deleteDashboards_returns c dashboardsToDelete applied Hstatus)
    as (s' & E & C & _ & _ & Gone).
  rewrite E. simpl. eexists. split; [reflexivity|]. simpl.
  split; [assumption|]. exact Gone.
Qed.

(** C3, as the code has it.  When the delete call for the first entry of the
    delete set returns an error together with a status in which [Status] or
    [Message] is nil, the pass stops with a nil pointer dereference. *)
Theorem failed_delete_with_nil_status_panics
    (r : ReconcileGrafanaDashboard) (c : GrafanaClient)
    (request : NamespacedName) (items : list GrafanaDashboard) (s : Store)
    (dashboard : GrafanaDashboardRef) (rest : list GrafanaDashboardRef)
    (status : GrafanaResponse) (err : error) (g : Remote) :
  let known := GetDashboards (config s) (ReqNamespace request) in
  let applied := applyDashboards msg r c known items s in
  ListDashboards (client r) (ReqNamespace request) = Ok items ->
  collectToDelete items known [] = dashboard :: rest ->
  DeleteDashboardByUID c (RefUID dashboard) (grafana applied)
  = ((status, Some err), g) ->
  Status status = None \/ Message status = None ->
  reconcileDashboards msg r request c s = Panicked nilDereference.
Proof.
  intros known applied Hlist Hdel Hcall Hnil.
  unfold reconcileDashboards. rewrite Hlist.
  fold known. rewrite Hdel. fold applied. simpl.
  unfold deleteDashboard. rewrite Hcall. simpl.
  destruct Hnil as [-> | ->]; simpl; [reflexivity|].
  now destruct (Status status).
Qed.

End Deletion.

Section EntryPoint.

Context {LA : LabelsAPI} {DM : DashboardMethods}
        {PL : DashboardPipeline} {GA : GrafanaAPI}.

Variable RequeueDelay : Z.
Variable msg : string.

(** C2, as the code has it.  With the readiness flag false, [Reconcile]
    returns at once with no error and a result that asks for no requeue at
    all, neither immediate nor delayed; the store is untouched, so no call
    was made to Grafana. *)
Theorem Reconcile_not_ready_is_noop
    (r : ReconcileGrafanaDashboard) (request : NamespacedName) (s : Store) :
  GrafanaReady (state r) = false ->
  Reconcile RequeueDelay msg r request s
  = Returned (s, ({| Requeue := false; RequeueAfter := 0 |}, None)) /\
  delayedRequeue {| Requeue := false; RequeueAfter := 0 |} = false.
Proof.
  intros H. unfold Reconcile. rewrite H. simpl. split; reflexivity.
Qed.

End EntryPoint.

(** * Further properties of the controller *)

Section Credentials.

Context {LA : LabelsAPI} {DM : DashboardMethods}
        {PL : DashboardPipeline} {GA : GrafanaAPI}.

Variable RequeueDelay : Z.
Variable msg : string.

(** X1. [getClient] builds a client exactly when the admin URL, the user
    name and the password are all non-empty, and then from these three and
    the timeout; otherwise it returns an error. *)
Theorem getClient_succeeds_iff_credentials (st : ControllerState) :
  ((exists grafanaClient, getClient st = Ok grafanaClient) <->
   AdminUrl st <> "" /\ AdminUsername st <> "" /\ AdminPassword st <> "") /\
  (forall grafanaClient,
     getClient st = Ok grafanaClient ->
     grafanaClient
     = NewGrafanaClient (AdminUrl st) (AdminUsername st) (AdminPassword st)
         (ClientTimeout st)).
Proof.
  unfold getClient.
  destruct (AdminUrl st =? "") eqn:U;
    [apply String.eqb_eq in U | apply String.eqb_neq in U].
  { split; [split|]; [intros [? ?]; discriminate | tauto | discriminate]. }
  destruct (AdminUsername st =? "") eqn:N;
    [apply String.eqb_eq in N | apply String.eqb_neq in N].
  { split; [split|]; [intros [? ?]; discriminate | tauto | discriminate]. }
  destruct (AdminPassword st =? "") eqn:P;
    [apply String.eqb_eq in P | apply String.eqb_neq in P].
  { split; [split|]; [intros [? ?]; discriminate | tauto | discriminate]. }
  split; [split|]; [tauto | eauto | congruence].
Qed.

Lemma getClient_fails (st : ControllerState) :
  AdminUrl st = "" \/ AdminUsername st = "" \/ AdminPassword st = "" ->
  exists err, getClient st = Err err.
Proof.
  unfold getClient. intros H.
  destruct (AdminUrl st =? "") eqn:U; [eauto|apply String.eqb_neq in U].
  destruct (AdminUsername st =? "") eqn:N; [eauto|apply String.eqb_neq in N].
  destruct (AdminPassword st =? "") eqn:P; [eauto|apply String.eqb_neq in P].
  tauto.
Qed.

(** X2. When Grafana is ready but one of the admin URL, user name and
    password is empty, [Reconcile] asks for a requeue after [RequeueDelay],
    returns no error and leaves the store alone, whatever the request. *)
Theorem Reconcile_without_credentials
    (r : ReconcileGrafanaDashboard) (request : NamespacedName) (s : Store) :
  GrafanaReady (state r) = true ->
  AdminUrl (state r) = "" \/ AdminUsername (state r) = ""
  \/ AdminPassword (state r) = "" ->
  Reconcile RequeueDelay msg r request s
  = Returned (s, ({| Requeue := false; RequeueAfter := RequeueDelay |}, None)).
Proof.
  intros Hready Hcred. unfold Reconcile. rewrite Hready. simpl.
  destruct (getClient_fails (state r) Hcred) as [err ->]. reflexivity.
Qed.

(** What a pass returns: the listing error with the store untouched, or no
    error with the dashboards marked as synced. *)
Lemma reconcileDashboards_returned (r : ReconcileGrafanaDashboard)
    (request : NamespacedName) (c : GrafanaClient) (s s' : Store)
    (res : Result) (err : option error) :
  reconcileDashboards msg r request c s = Returned (s', (res, err)) ->
  res = {| Requeue := false; RequeueAfter := 0 |} /\
  ((exists e, ListDashboards (client r) (ReqNamespace request) = Err e
              /\ err = Some e /\ s' = s) \/
   (exists items, ListDashboards (client r) (ReqNamespace request) = Ok items
                  /\ err = None /\ DashboardsSynced (config s') = true)).
Proof.
  unfold reconcileDashboards.
  destruct (ListDashboards (client r) (ReqNamespace request)) as [items|e].
  - destruct (deleteDashboards c _ _) as [s1|why]; simpl; [|discriminate].
    intros H. inversion H. subst. split; [reflexivity|]. right. eauto.
  - intros H. inversion H. subst. split; [reflexivity|]. left. eauto.
Qed.

(** X3. A pass that returns never asks for a requeue.  It returns an error
    exactly when the listing of the namespace failed, and then the store is
    as it was; otherwise the dashboards are marked as synced, whatever
    happened to the single dashboards. *)
Theorem reconcileDashboards_error_iff_listing_failed
    (r : ReconcileGrafanaDashboard) (request : NamespacedName)
    (c : GrafanaClient) (s s' : Store) (res : Result) (err : option error) :
  reconcileDashboards msg r request c s = Returned (s', (res, err)) ->
  res = {| Requeue := false; RequeueAfter := 0 |} /\
  (forall e,
     err = Some e <-> ListDashboards (client r) (ReqNamespace request) = Err e) /\
  (err <> None -> s' = s) /\
  (err = None -> DashboardsSynced (config s') = true).
Proof.
  intros H. apply reconcileDashboards_returned in H.
  destruct H as [-> [(e & HL & -> & ->) | (items & HL & -> & Hs)]].
  - split; [reflexivity|]. split; [|split].
    + intros e'. rewrite HL. split; congruence.
    + reflexivity.
    + discriminate.
  - split; [reflexivity|]. split; [|split].
    + intros e'. rewrite HL. split; discriminate.
    + congruence.
    + intros _. exact Hs.
Qed.

(** X4. [Reconcile] never asks for an immediate requeue.  When it returns,
    the delay it asks for is none or [RequeueDelay], a delay comes with no
    error and an untouched store, and an error comes with an untouched
    store. *)
Theorem Reconcile_result_shape
    (r : ReconcileGrafanaDashboard) (request : NamespacedName)
    (s s' : Store) (res : Result) (err : option error) :
  Reconcile RequeueDelay msg r request s = Returned (s', (res, err)) ->
  Requeue res = false /\
  (RequeueAfter res = 0%Z \/
   (RequeueAfter res = RequeueDelay /\ err = None /\ s' = s)) /\
  (err <> None -> s' = s).
Proof.
  assert (Hpass : forall c,
    reconcileDashboards msg r request c s = Returned (s', (res, err)) ->
    Requeue res = false /\
    (RequeueAfter res = 0%Z \/
     (RequeueAfter res = RequeueDelay /\ err = None /\ s' = s)) /\
    (err <> None -> s' = s)).
  { intros c H. apply reconcileDashboards_returned in H.
    destruct H as [-> [(e & _ & -> & ->) | (items & _ & -> & _)]];
      simpl; repeat split; auto; congruence. }
  unfold Reconcile.
  destruct (GrafanaReady (state r)); simpl.
  2: { intros H. inversion H. subst. simpl. intuition congruence. }
  destruct (getClient (state r)) as [c|e].
  2: { intros H. inversion H. subst. simpl. intuition congruence. }
  destruct (ReqName request =? ""); [apply Hpass|].
  destruct (DashboardSelectors (state r)) as [S|].
  2: { intros H. inversion H. subst. simpl. intuition congruence. }
  destruct (GetDashboard (client r) request) as [instance|e].
  - destruct (isMatch (state r) instance); simpl; [apply Hpass|].
    intros H. inversion H. subst. simpl. intuition congruence.
  - destruct (IsNotFound e); [apply Hpass|].
    intros H. inversion H. subst. simpl. intuition congruence.
Qed.

End Credentials.

Section FirstLoop.

Context {LA : LabelsAPI} {DM : DashboardMethods}
        {PL : DashboardPipeline} {GA : GrafanaAPI}.

Variable msg : string.

(** The calls of one turn: none, the folder call, or the folder call and
    then the call that submits the dashboard; the folder is that of the
    namespace of the dashboard as the pipeline returned it, and what is
    submitted is the payload of the pipeline. *)
Lemma applyDashboard_calls (r : ReconcileGrafanaDashboard) (c : GrafanaClient)
    (known : list GrafanaDashboardRef) (s : Store) (d : GrafanaDashboard) :
  exists b,
    calls (applyDashboard msg r c known s d) = calls s ++ b /\
    (b = [] \/
     exists d' processed,
       isMatch (state r) d = true /\
       ProcessDashboard (client r) d (findHash known d)
       = (d', Some processed, None) /\
       (b = [CallGetOrCreateNamespaceFolder (Namespace d')] \/
        exists folderId,
          b = [CallGetOrCreateNamespaceFolder (Namespace d');
               CallCreateOrUpdateDashboard processed folderId])).
Proof.
  assert (Hnone : forall s0 : Store,
             calls s0 = calls s ->
             exists b,
               calls s0 = calls s ++ b /\
               (b = [] \/
                exists d' processed,
                  isMatch (state r) d = true /\
                  ProcessDashboard (client r) d (findHash known d)
                  = (d', Some processed, None) /\
                  (b = [CallGetOrCreateNamespaceFolder (Namespace d')] \/
                   exists folderId,
                     b = [CallGetOrCreateNamespaceFolder (Namespace d');
                          CallCreateOrUpdateDashboard processed folderId]))).
  { intros s0 H0. exists []. rewrite app_nil_r. split; [assumption|now left]. }
  unfold applyDashboard.
  destruct (isMatch (state r) d) eqn:Hm; simpl; [|now apply Hnone].
  destruct (ProcessDashboard (client r) d (findHash known d)) as [[d' p] e].
  destruct e as [e|]; [rewrite manageError_frame; now apply Hnone|].
  destruct p as [p|]; [|now apply Hnone].
  destruct (namespaceChecked r d') as [[|] [e|]];
    try (rewrite manageError_frame; now apply Hnone);
    try (now apply Hnone).
  destruct (GetOrCreateNamespaceFolder c (Namespace d') (grafana s))
    as [[folder|e] g1].
  2: { rewrite manageError_frame. simpl. eexists. split; [reflexivity|].
       right. exists d', p. auto. }
  simpl.
  destruct (CreateOrUpdateDashboard c p (folderIdOf folder) g1) as [[resp|e] g2];
    [|rewrite manageError_frame]; simpl; rewrite <- app_assoc;
    (eexists; split; [reflexivity|]; right; exists d', p;
     split; [reflexivity|]; split; [reflexivity|]; right; simpl; eauto).
Qed.

(** X5. The calls of the first loop are, dashboard by dashboard in the order
    of the listing: no call, or the folder call for the namespace of the
    dashboard as the pipeline returned it, or that call followed by the
    create-or-update call with the payload of the pipeline; calls are made
    only for a dashboard in scope with a payload, and no delete call is
    made. *)
Theorem apply_loop_calls_shape (r : ReconcileGrafanaDashboard)
    (c : GrafanaClient) (known : list GrafanaDashboardRef)
    (items : list GrafanaDashboard) (s : Store) :
  exists blocks,
    calls (applyDashboards msg r c known items s) = calls s ++ concat blocks /\
    Forall2
      (fun d b =>
         b = [] \/
         exists d' processed,
           isMatch (state r) d = true /\
           ProcessDashboard (client r) d (findHash known d)
           = (d', Some processed, None) /\
           (b = [CallGetOrCreateNamespaceFolder (Namespace d')] \/
            exists folderId,
              b = [CallGetOrCreateNamespaceFolder (Namespace d');
                   CallCreateOrUpdateDashboard processed folderId]))
      items blocks.
Proof.
  revert s. induction items as [|d rest IH]; intros s.
  - exists []. simpl. rewrite app_nil_r. auto.
  - destruct (applyDashboard_calls r c known s d) as (b & Hb & Hshape).
    destruct (IH (applyDashboard msg r c known s d)) as (bs & Hbs & Hall).
    exists (b :: bs). simpl. split.
    + unfold applyDashboards in *. simpl. rewrite Hbs, Hb.
      now rewrite <- app_assoc.
    + now constructor.
Qed.

(** The events of one turn: none or one, a success or a processing error. *)
Lemma applyDashboard_events (r : ReconcileGrafanaDashboard) (c : GrafanaClient)
    (known : list GrafanaDashboardRef) (s : Store) (d : GrafanaDashboard) :
  exists added,
    recorder (applyDashboard msg r c known s d) = recorder s ++ added /\
    length added <= 1 /\
    Forall (fun ev =>
              (EvType ev = "Normal" /\ EvReason ev = "Success") \/
              (EvType ev = "Warning" /\ EvReason ev = "ProcessingError"))
           added.
Proof.
  assert (Hnone : exists added : list Event,
             recorder s = recorder s ++ added /\ length added <= 1 /\
             Forall (fun ev =>
                       (EvType ev = "Normal" /\ EvReason ev = "Success") \/
                       (EvType ev = "Warning" /\ EvReason ev = "ProcessingError"))
                    added).
  { exists []. rewrite app_nil_r. simpl. auto. }
  assert (Herr : forall (s0 : Store) d' e,
             recorder s0 = recorder s ->
             exists added : list Event,
               recorder (manageError d' e s0) = recorder s ++ added /\
               length added <= 1 /\
               Forall (fun ev =>
                         (EvType ev = "Normal" /\ EvReason ev = "Success") \/
                         (EvType ev = "Warning" /\ EvReason ev = "ProcessingError"))
                      added).
  { intros s0 d' e H0. rewrite manageError_frame. simpl. rewrite H0.
    eexists. split; [reflexivity|]. simpl. split; [lia|].
    constructor; [right; auto|constructor]. }
  unfold applyDashboard.
  destruct (isMatch (state r) d); simpl; [|exact Hnone].
  destruct (ProcessDashboard (client r) d (findHash known d)) as [[d' p] e].
  destruct e as [e|]; [now apply Herr|].
  destruct p as [p|]; [|exact Hnone].
  destruct (namespaceChecked r d') as [[|] [e|]];
    try (now apply Herr); try exact Hnone.
  destruct (GetOrCreateNamespaceFolder c (Namespace d') (grafana s))
    as [[folder|e] g1]; [|now apply Herr].
  simpl.
  destruct (CreateOrUpdateDashboard c p (folderIdOf folder) g1) as [[resp|e] g2];
    [|now apply Herr].
  simpl. eexists. split; [reflexivity|]. simpl. split; [lia|].
  constructor; [left; auto|constructor].
Qed.

(** X6. The first loop keeps the events recorded so far and adds at most one
    event per listed dashboard, each a Normal/Success or a
    Warning/ProcessingError event. *)
Theorem apply_loop_events (r : ReconcileGrafanaDashboard)
    (c : GrafanaClient) (known : list GrafanaDashboardRef)
    (items : list GrafanaDashboard) (s : Store) :
  exists added,
    recorder (applyDashboards msg r c known items s) = recorder s ++ added /\
    length added <= length items /\
    Forall (fun ev =>
              (EvType ev = "Normal" /\ EvReason ev = "Success") \/
              (EvType ev = "Warning" /\ EvReason ev = "ProcessingError"))
           added.
Proof.
  revert s. induction items as [|d rest IH]; intros s.
  - exists []. simpl. rewrite app_nil_r. auto.
  - destruct (applyDashboard_events r c known s d) as (a & Ha & Hlen & Hall).
    destruct (IH (applyDashboard msg r c known s d)) as (a' & Ha' & Hlen' & Hall').
    exists (a ++ a'). split; [|split].
    + unfold applyDashboards in *. simpl. rewrite Ha', Ha.
      now rewrite <- app_assoc.
    + rewrite length_app. simpl. lia.
    + apply Forall_app. auto.
Qed.

Lemma applyDashboards_out_of_scope (r : ReconcileGrafanaDashboard)
    (c : GrafanaClient) (known : list GrafanaDashboardRef)
    (items : list GrafanaDashboard) (s : Store) :
  (forall d, In d items -> isMatch (state r) d = false) ->
  applyDashboards msg r c known items s = s.
Proof.
  induction items as [|d rest IH]; intros H; [reflexivity|].
  unfold applyDashboards in *. simpl. unfold applyDashboard at 2.
  rewrite (H d (or_introl eq_refl)). simpl.
  apply IH. intros d' Hin. apply H. now right.
Qed.

(** X7. When no listed dashboard is in scope, as when the selectors are
    nil, the pass is the delete loop followed by the synced mark: nothing is
    submitted and no event is recorded, yet registry entries that left the
    listing are still deleted. *)
Theorem pass_with_nothing_in_scope (r : ReconcileGrafanaDashboard)
    (request : NamespacedName) (c : GrafanaClient)
    (items : list GrafanaDashboard) (s : Store) :
  ListDashboards (client r) (ReqNamespace request) = Ok items ->
  (DashboardSelectors (state r) = None \/
   forall d, In d items -> isMatch (state r) d = false) ->
  reconcileDashboards msg r request c s
  = (s1 <- deleteDashboards c
             (collectToDelete items
                (GetDashboards (config s) (ReqNamespace request)) []) s ;;
     Returned (withConfig s1 (MarkDashboardsSynced (config s1)),
               ({| Requeue := false; RequeueAfter := 0 |}, None))).
Proof.
  intros Hlist Hscope. unfold reconcileDashboards. rewrite Hlist.
  rewrite applyDashboards_out_of_scope; [reflexivity|].
  destruct Hscope as [Hnil|H]; [|exact H].
  intros d _. unfold isMatch. now rewrite Hnil.
Qed.

Lemma findHash_filter (l : list GrafanaDashboardRef) (d : GrafanaDashboard) :
  findHash (filter (fun e => RefNamespace e =? Namespace d) l) d
  = match find (sameRef (Namespace d) (Name d)) l with
    | Some e => RefHash e
    | None => ""
    end.
Proof.
  induction l as [|e l IH]; simpl; [reflexivity|].
  unfold sameRef at 1.
  destruct (RefNamespace e =? Namespace d) eqn:E; simpl; [|exact IH].
  rewrite (String.eqb_sym (Namespace d)), E, andb_true_r.
  rewrite (String.eqb_sym (Name d)).
  destruct (RefName e =? Name d); [reflexivity|exact IH].
Qed.

(** X8. The known hash handed to the pipeline for a dashboard is the hash of
    its registry entry, and the empty string when it has none. *)
Theorem findHash_is_registry_hash (c : ControllerConfig) (d : GrafanaDashboard) :
  findHash (GetDashboards c (Namespace d)) d
  = match HasDashboard c (Namespace d) (Name d) with
    | Some e => RefHash e
    | None => ""
    end.
Proof. unfold GetDashboards, HasDashboard. apply findHash_filter. Qed.

(** X9. Once a dashboard has been submitted with success, the known hash of
    every dashboard with the same namespace and name is the status hash the
    pipeline left on it: the next pass hands that hash to the pipeline. *)
Theorem submitted_hash_is_next_known_hash (r : ReconcileGrafanaDashboard)
    (c : GrafanaClient) (known : list GrafanaDashboardRef) (s : Store)
    (d d' next : GrafanaDashboard) (resp : GrafanaResponse) :
  submits r c known s d d' (Ok resp) ->
  Name next = Name d' -> Namespace next = Namespace d' ->
  findHash
    (GetDashboards (config (applyDashboard msg r c known s d)) (Namespace next))
    next
  = StatusHash d'.
Proof.
  intros Hsub Hname Hns.
  destruct (applyDashboard_submits msg Hsub) as (s2 & _ & _ & ->).
  unfold GetDashboards. rewrite findHash_filter.
  unfold manageSuccess. simpl. rewrite find_putRef.
  unfold sameRef. simpl. now rewrite Hname, Hns, !String.eqb_refl.
Qed.

Lemma inNamespace_incl (items items' : list GrafanaDashboard)
    (e : GrafanaDashboardRef) :
  incl items items' -> inNamespace items e = true -> inNamespace items' e = true.
Proof.
  intros Hincl H. apply inNamespace_true_iff in H as (d & Hin & Hd).
  apply inNamespace_true_iff. exists d. split; [now apply Hincl|assumption].
Qed.

(** X10. With an empty listing the delete set is every known dashboard;
    with no known dashboard it is empty; and listing more dashboards can
    only take entries out of it. *)
Theorem delete_set_edges (known : list GrafanaDashboardRef)
    (items items' : list GrafanaDashboard) :
  collectToDelete [] known [] = known /\
  collectToDelete items [] [] = [] /\
  (incl items items' ->
   incl (collectToDelete items' known []) (collectToDelete items known [])).
Proof.
  split; [|split].
  - rewrite collectToDelete_filter. simpl.
    induction known as [|e rest IH]; simpl; [reflexivity|]. now rewrite IH.
  - reflexivity.
  - intros Hincl e. rewrite !collectToDelete_filter. simpl.
    rewrite !filter_In, !negb_true_iff. intros [Hin Hout]. split; [assumption|].
    destruct (inNamespace items e) eqn:E; [|reflexivity].
    now rewrite (inNamespace_incl e Hincl E) in Hout.
Qed.

End FirstLoop.

Section SecondLoop.

Context {LA : LabelsAPI} {DM : DashboardMethods}
        {PL : DashboardPipeline} {GA : GrafanaAPI}.

Variable RequeueDelay : Z.
Variable msg : string.

(** X11. A turn of the delete loop stops with a nil pointer dereference
    exactly when the response has no message, or the call failed and the
    response has no status; so a delete that succeeded also stops the pass
    when its response carries no message.  In every other case the turn
    returns. *)
Theorem deleteDashboard_panics_iff (c : GrafanaClient)
    (d : GrafanaDashboardRef) (s : Store) :
  (deleteDashboard c d s = Panicked nilDereference <->
   Message (fst (fst (DeleteDashboardByUID c (RefUID d) (grafana s)))) = None \/
   (snd (fst (DeleteDashboardByUID c (RefUID d) (grafana s))) <> None /\
    Status (fst (fst (DeleteDashboardByUID c (RefUID d) (grafana s)))) = None))
  /\
  ((exists s', deleteDashboard c d s = Returned s') <->
   Message (fst (fst (DeleteDashboardByUID c (RefUID d) (grafana s)))) <> None /\
   (snd (fst (DeleteDashboardByUID c (RefUID d) (grafana s))) = None \/
    Status (fst (fst (DeleteDashboardByUID c (RefUID d) (grafana s)))) <> None)).
Proof.
  unfold deleteDashboard.
  destruct (DeleteDashboardByUID c (RefUID d) (grafana s)) as [[status e] g].
  simpl.
  destruct (Status status) as [st|], (Message status) as [m|], e as [e|]; simpl;
    (split; split; intros H;
     try discriminate; try reflexivity;
     try (now destruct H);
     try (eexists; reflexivity);
     intuition congruence).
Qed.

Lemma deleteDashboard_returned_inv (c : GrafanaClient)
    (d : GrafanaDashboardRef) (s s' : Store) :
  deleteDashboard c d s = Returned s' ->
  calls s' = calls s ++ [CallDeleteDashboardByUID (RefUID d)] /\
  recorder s' = recorder s /\
  config s'
  = RemoveDashboard (RemovePluginsFor (config s) (RefNamespace d) (RefName d))
      (RefNamespace d) (RefName d).
Proof.
  unfold deleteDashboard.
  destruct (DeleteDashboardByUID c (RefUID d) (grafana s)) as [[status e] g].
  destruct (Status status) as [st|], (Message status) as [m|], e as [e|]; simpl;
    try discriminate; intros H; inversion H; simpl; auto.
Qed.

Lemma find_filter_other {A : Type} (p q : A -> bool) (l : list A) :
  (forall x, p x = true -> q x = true) ->
  find p (filter q l) = find p l.
Proof.
  intros H. induction l as [|x l IH]; simpl; [reflexivity|].
  destruct (p x) eqn:E.
  - rewrite (H x E). simpl. now rewrite E.
  - destruct (q x); simpl; [rewrite E|]; exact IH.
Qed.

Lemma HasDashboard_RemoveDashboard_any (c : ControllerConfig)
    (d : GrafanaDashboardRef) (namespace name : string) :
  HasDashboard (RemoveDashboard c (RefNamespace d) (RefName d)) namespace name
  = if sameRef namespace name d then None else HasDashboard c namespace name.
Proof.
  destruct (sameRef namespace name d) eqn:E.
  - unfold sameRef in E. apply andb_true_iff in E as [E1 E2].
    apply String.eqb_eq in E1, E2. rewrite E1, E2.
    apply HasDashboard_RemoveDashboard.
  - unfold HasDashboard, RemoveDashboard. simpl. apply find_filter_other.
    intros x Hx. apply negb_true_iff.
    destruct (sameRef (RefNamespace d) (RefName d) x) eqn:F; [|reflexivity].
    unfold sameRef in *.
    apply andb_true_iff in Hx as [H1 H2]. apply andb_true_iff in F as [F1 F2].
    apply String.eqb_eq in H1, H2, F1, F2.
    rewrite <- F1, <- F2, H1, H2, !String.eqb_refl in E. discriminate.
Qed.

(** The delete loop, when it returns: one call per entry, no event, and the
    registry without the entries of the dashboards it was given. *)
Lemma deleteDashboards_returned_inv (c : GrafanaClient)
    (l : list GrafanaDashboardRef) :
  forall s s',
    deleteDashboards c l s = Returned s' ->
    calls s' = calls s ++ map (fun d => CallDeleteDashboardByUID (RefUID d)) l /\
    recorder s' = recorder s /\
    forall namespace name,
      HasDashboard (config s') namespace name
      = if existsb (sameRef namespace name) l then None
        else HasDashboard (config s) namespace name.
Proof.
  induction l as [|d rest IH]; intros s s' H; simpl in *.
  - inversion H. subst. now rewrite app_nil_r.
  - destruct (deleteDashboard c d s) as [s1|why] eqn:E; simpl in H;
      [|discriminate].
    apply deleteDashboard_returned_inv in E as (C1 & R1 & K1).
    apply IH in H as (C & R & K).
    split; [|split].
    + rewrite C, C1, <- app_assoc. reflexivity.
    + congruence.
    + intros namespace name. rewrite K, K1.
      rewrite HasDashboard_RemoveDashboard_any.
      destruct (sameRef namespace name d); simpl.
      * now destruct (existsb (sameRef namespace name) rest).
      * reflexivity.
Qed.

(** X12. Whenever a pass over a listed namespace returns, its delete calls
    are exactly one per entry of the delete set, in order and after every
    call of the first loop; the delete loop records no event, also for a
    delete that failed; and the registry has lost the dashboards of the
    delete set and no other. *)
Theorem returned_pass_delete_effects (r : ReconcileGrafanaDashboard)
    (request : NamespacedName) (c : GrafanaClient)
    (items : list GrafanaDashboard) (s s' : Store)
    (out : Result * option error) :
  let known := GetDashboards (config s) (ReqNamespace request) in
  let dashboardsToDelete := collectToDelete items known [] in
  let applied := applyDashboards msg r c known items s in
  ListDashboards (client r) (ReqNamespace request) = Ok items ->
  reconcileDashboards msg r request c s = Returned (s', out) ->
  calls s'
  = calls applied
    ++ map (fun d => CallDeleteDashboardByUID (RefUID d)) dashboardsToDelete /\
  recorder s' = recorder applied /\
  forall namespace name,
    HasDashboard (config s') namespace name
    = if existsb (sameRef namespace name) dashboardsToDelete then None
      else HasDashboard (config applied) namespace name.
Proof.
  intros known dashboardsToDelete applied Hlist. unfold reconcileDashboards.
  rewrite Hlist. fold known. fold dashboardsToDelete. fold applied.
  destruct (deleteDashboards c dashboardsToDelete applied) as [s1|why] eqn:E;
    simpl; [|discriminate].
  intros H. inversion H. subst. simpl.
  exact (deleteDashboards_returned_inv c dashboardsToDelete applied E).
Qed.

Lemma delete_set_misses (items : list GrafanaDashboard)
    (known : list GrafanaDashboardRef) (namespace name : string) :
  (forall e, In e known -> sameRef namespace name e = true ->
             inNamespace items e = true) ->
  existsb (sameRef namespace name) (collectToDelete items known []) = false.
Proof.
  intros H. rewrite collectToDelete_filter. simpl.
  induction known as [|e rest IH]; simpl; [reflexivity|].
  destruct (inNamespace items e) eqn:E; simpl.
  - apply IH. intros e' Hin. apply H. now right.
  - destruct (sameRef namespace name e) eqn:F; simpl.
    + rewrite (H e (or_introl eq_refl) F) in E. discriminate.
    + apply IH. intros e' Hin. apply H. now right.
Qed.

(** X13. A pass that returns keeps the registry entry of every dashboard of
    another namespace and of every dashboard that is still listed, in scope
    of the selectors or not: only dashboards that left the listing of the
    namespace lose their entry. *)
Theorem pass_keeps_other_entries (r : ReconcileGrafanaDashboard)
    (request : NamespacedName) (c : GrafanaClient)
    (items : list GrafanaDashboard) (s s' : Store)
    (out : Result * option error) (namespace name : string) :
  ListDashboards (client r) (ReqNamespace request) = Ok items ->
  reconcileDashboards msg r request c s = Returned (s', out) ->
  namespace <> ReqNamespace request \/
  (exists d, In d items /\ Name d = name /\ Namespace d = namespace) ->
  HasDashboard (config s) namespace name <> None ->
  HasDashboard (config s') namespace name <> None.
Proof.
  intros Hlist. unfold reconcileDashboards. rewrite Hlist.
  destruct (deleteDashboards c _ _) as [s1|why] eqn:E; simpl; [|discriminate].
  intros H Hkeep Hhas. inversion H. subst.
  apply deleteDashboards_returned_inv in E as (_ & _ & K).
  change (HasDashboard (config s1) namespace name <> None).
  rewrite K, delete_set_misses.
  - now apply applyDashboards_keeps_entries.
  - intros e Hin Hsame. unfold sameRef in Hsame.
    apply andb_true_iff in Hsame as [H1 H2]. apply String.eqb_eq in H1, H2.
    destruct Hkeep as [Hother | (d & Hd & Hn & Hns)].
    + unfold GetDashboards in Hin. apply filter_In in Hin as [_ Hin].
      apply String.eqb_eq in Hin. congruence.
    + apply inNamespace_true_iff. exists d. split; [assumption|]. split; congruence.
Qed.

(** X14. When the dashboard of a request is gone from the cluster and
    from the listing of its namespace while the registry still holds an
    entry for it, a [Reconcile] that returns has made the delete call for the
    UID of that entry and has dropped the entry, with no error and no
    requeue. *)
Theorem Reconcile_deletes_vanished_dashboard (r : ReconcileGrafanaDashboard)
    (request : NamespacedName) (s s' : Store) (out : Result * option error)
    (S : list LabelSelector) (notFound : error)
    (items : list GrafanaDashboard) (entry : GrafanaDashboardRef) :
  GrafanaReady (state r) = true ->
  AdminUrl (state r) <> "" -> AdminUsername (state r) <> "" ->
  AdminPassword (state r) <> "" ->
  DashboardSelectors (state r) = Some S ->
  GetDashboard (client r) request = Err notFound ->
  IsNotFound notFound = true ->
  ListDashboards (client r) (ReqNamespace request) = Ok items ->
  (forall d, In d items ->
     ~ (Name d = ReqName request /\ Namespace d = ReqNamespace request)) ->
  In entry (Dashboards (config s)) ->
  RefNamespace entry = ReqNamespace request ->
  RefName entry = ReqName request ->
  Reconcile RequeueDelay msg r request s = Returned (s', out) ->
  In (CallDeleteDashboardByUID (RefUID entry)) (calls s') /\
  HasDashboard (config s') (ReqNamespace request) (ReqName request) = None /\
  out = ({| Requeue := false; RequeueAfter := 0 |}, None).
Proof.
  intros Hready Hurl Huser Hpass HS Hget Hnf Hlist Hgone Hin Hns Hname.
  assert (Hpassrun : exists c,
    Reconcile RequeueDelay msg r request s
    = reconcileDashboards msg r request c s).
  { unfold Reconcile, getClient. rewrite Hready. simpl.
    apply String.eqb_neq in Hurl, Huser, Hpass. rewrite Hurl, Huser, Hpass.
    eexists. destruct (ReqName request =? ""); [reflexivity|].
    now rewrite HS, Hget, Hnf. }
  destruct Hpassrun as [c ->]. unfold reconcileDashboards. rewrite Hlist.
  destruct (deleteDashboards c _ _) as [s1|why] eqn:E; simpl; [|discriminate].
  intros H. inversion H. subst.
  apply deleteDashboards_returned_inv in E as (C & _ & K).
  change (In (CallDeleteDashboardByUID (RefUID entry)) (calls s1) /\
          HasDashboard (config s1) (ReqNamespace request) (ReqName request) = None /\
          ({| Requeue := false; RequeueAfter := 0 |}, @None error)
          = ({| Requeue := false; RequeueAfter := 0 |}, None)).
  assert (Hdel : In entry
            (collectToDelete items
               (GetDashboards (config s) (ReqNamespace request)) [])).
  { rewrite collectToDelete_filter. simpl. apply filter_In. split.
    - unfold GetDashboards. apply filter_In. split; [assumption|].
      now apply String.eqb_eq.
    - apply negb_true_iff.
      destruct (inNamespace items entry) eqn:F; [|reflexivity].
      apply inNamespace_true_iff in F as (d & Hd & Hn & Hn').
      exfalso. apply (Hgone d Hd). split; congruence. }
  split; [|split; [|reflexivity]].
  - rewrite C. apply in_or_app. right.
    now apply (in_map (fun d => CallDeleteDashboardByUID (RefUID d))).
  - rewrite K.
    assert (Hex : existsb (sameRef (ReqNamespace request) (ReqName request))
                    (collectToDelete items
                       (GetDashboards (config s) (ReqNamespace request)) [])
                  = true).
    { apply existsb_exists. exists entry. split; [assumption|].
      unfold sameRef. now rewrite Hns, Hname, !String.eqb_refl. }
    now rewrite Hex.
Qed.

(** X15. The periodic resync does not wait for the selectors.  On a ready
    controller with credentials and nil selectors, a request for a named
    dashboard is put off by [RequeueDelay] with the store untouched, but the
    empty request of the timer runs the pass: it submits nothing, deletes
    what left the listing and marks the dashboards as synced. *)
Theorem resync_does_not_wait_for_selectors (r : ReconcileGrafanaDashboard)
    (namespace : string) (items : list GrafanaDashboard) (s : Store)
    (c : GrafanaClient) :
  GrafanaReady (state r) = true ->
  getClient (state r) = Ok c ->
  DashboardSelectors (state r) = None ->
  ListDashboards (client r) namespace = Ok items ->
  (forall name, name <> "" ->
     Reconcile RequeueDelay msg r
       {| ReqNamespace := namespace; ReqName := name |} s
     = Returned (s, ({| Requeue := false; RequeueAfter := RequeueDelay |}, None)))
  /\
  sendEmptyRequest RequeueDelay msg r namespace s
  = (s1 <- deleteDashboards c
             (collectToDelete items (GetDashboards (config s) namespace) []) s ;;
     Returned (withConfig s1 (MarkDashboardsSynced (config s1)))).
Proof.
  intros Hready Hclient Hnil Hlist. split.
  - intros name Hname. unfold Reconcile. rewrite Hready, Hclient. simpl.
    apply String.eqb_neq in Hname. now rewrite Hname, Hnil.
  - unfold sendEmptyRequest, Reconcile. rewrite Hready, Hclient. simpl.
    unfold reconcileDashboards. simpl. rewrite Hlist.
    rewrite applyDashboards_out_of_scope.
    + now destruct (deleteDashboards c _ s).
    + intros d _. unfold isMatch. now rewrite Hnil.
Qed.

(** X16. A reconciler as [newReconciler] builds it starts from the zero
    controller state, so until a state change arrives every request, and
    every tick of the resync timer, returns at once: the store is untouched
    and no requeue is asked for. *)
Theorem newReconciler_is_idle (mgrClient : KubeClient)
    (request : NamespacedName) (namespace : string) (s : Store) :
  Reconcile RequeueDelay msg (newReconciler mgrClient) request s
  = Returned (s, ({| Requeue := false; RequeueAfter := 0 |}, None)) /\
  sendEmptyRequest RequeueDelay msg (newReconciler mgrClient) namespace s
  = Returned s.
Proof. split; reflexivity. Qed.

End SecondLoop.

Section TwoPasses.

Context {LA : LabelsAPI} {DM : DashboardMethods}
        {PL : DashboardPipeline} {GA : GrafanaAPI}.

Variable msg : string.
Variable hash : GrafanaDashboard -> string.
Variable r : ReconcileGrafanaDashboard.
Variable c : GrafanaClient.


















End TwoPasses.

(** * The controller on the small installation *)

Import Demo.

(** The first way of writing the method meets the contract, on every
    dashboard and every set of selectors. *)
Lemma matchesFrom_existsb (l : LabelSet) (s : list DemoSelector) :
  forall result matched,
    matchesFrom result l s = (matched, None) ->
    matched = result || existsb (satisfies l) s.
Proof.
  induction s as [|selector s IH]; intros result matched H; simpl in *.
  - inversion H. now rewrite orb_false_r.
  - unfold satisfies at 1.
    destruct selector as [required|]; simpl in *; [|discriminate H].
    rewrite (IH _ _ H). now rewrite orb_assoc.
Qed.

Lemma methods_meet_contract (item : GrafanaDashboard) (s : list DemoSelector) :
  MatchesSelectorsContract item s.
Proof. intros matched H. now apply matchesFrom_existsb in H. Qed.

Lemma isMatch_iff_evaluated_and_satisfied_witness :
  isMatch ready da = true <->
  snd (MatchesSelectors da [MatchLabels app]) = None /\
  exists selector,
    In selector [MatchLabels app]
    /\ satisfies (Labels da) selector = true.
Proof.
  apply (proj2 (proj2 (isMatch_iff_evaluated_and_satisfied ready da))
           [MatchLabels app]).
  - reflexivity.
  - intros matched H. vm_compute in H. inversion H. reflexivity.
Defined.

(** The labels satisfy the first selector of the set, the second selector
    cannot be converted: the dashboard is not eligible. *)
Lemma isMatch_false_although_a_selector_is_satisfied :
  DashboardSelectors malformed = Some [MatchLabels app; Malformed] /\
  In (MatchLabels app) [MatchLabels app; Malformed] /\
  satisfies (Labels da) (MatchLabels app) = true /\
  isMatch malformed da = false.
Proof. repeat split. now left. Qed.

Lemma checkNamespaceLabels_spec_witness :
  checkNamespaceLabels (reconciler [dstaging] prodOnly) dstaging
  = (false, None).
Proof.
  apply (proj2 (checkNamespaceLabels_spec
                  (reconciler [dstaging] prodOnly) dstaging)
           {| NsName := "staging"; NsLabels := [("env", "staging")] |}
           (Some [("env", "prod")])); reflexivity.
Defined.

Lemma selector_error_skips_dashboard_witness :
  @MatchesSelectors labels keepingMethods da [MatchLabels app; Malformed]
  = (true, Some (ErrOther "invalid label selector")) /\
  @isMatch labels keepingMethods malformed da = false /\
  @applyDashboard labels keepingMethods pipeline grafanaServer "ok"
    (reconciler [da] malformed) api [] (store []) da
  = store [].
Proof.
  split; [reflexivity|].
  apply (@selector_error_skips_dashboard labels keepingMethods pipeline
           grafanaServer "ok" (reconciler [da] malformed) api [] (store []) da
           [MatchLabels app; Malformed] true
           (ErrOther "invalid label selector"));
    reflexivity.
Defined.

Lemma namespace_mismatch_turn_witness :
  applyDashboard "ok" (reconciler [dstaging] prodOnly) api [] (store []) dstaging
  = store [].
Proof.
  refine (proj2 (proj2 (@namespace_mismatch_turn _ _ _ _ "ok"
                          (reconciler [dstaging] prodOnly) api [] [dstaging]
                          (store []) dstaging _ _ _))
            (withStatus dstaging "hash5") (Some "hash5") None _).
  - discriminate.
  - reflexivity.
  - simpl. now left.
  - reflexivity.
Defined.

(** The namespace selector asks for [env=prod] and both dashboards live in
    [staging].  The first is unchanged, so the pipeline returns nil for it:
    its plugins are written to the config.  The second cannot be rendered: a
    Warning event is recorded for it. *)
Lemma namespace_mismatch_with_side_effects :
  DashboardNamespaceSelector (state (reconciler [dstaging; dempty] prodOnly))
  = Some (MatchLabels [("env", "prod")]) /\
  checkNamespaceLabels (reconciler [dstaging; dempty] prodOnly) dstaging
  = (false, None) /\
  HasPlugins (config (bareStore [ref "staging" "d" "d" "hash5"])) "staging" "d"
  = None /\
  HasPlugins
    (config (applyDashboard "ok" (reconciler [dstaging; dempty] prodOnly) api
               [ref "staging" "d" "d" "hash5"]
               (bareStore [ref "staging" "d" "d" "hash5"]) dstaging))
    "staging" "d"
  = Some ["d-plugin"] /\
  checkNamespaceLabels (reconciler [dstaging; dempty] prodOnly) dempty
  = (false, None) /\
  recorder (applyDashboard "ok" (reconciler [dstaging; dempty] prodOnly) api
              [ref "staging" "d" "d" "hash5"]
              (bareStore [ref "staging" "d" "d" "hash5"]) dempty)
  = [{| EvNamespace := "staging"; EvName := "e"; EvType := "Warning";
        EvReason := "ProcessingError"; EvMessage := "empty dashboard" |}].
Proof. repeat split. Qed.






Lemma delete_set_entries_are_removed_even_on_failure_witness :
  snd (fst (DeleteDashboardByUID api "stuck" []))
  = Some (ErrOther "server error") /\
  exists s',
    reconcileDashboards "ok" (reconciler [da] ready) resync api
      (store [knownA; knownStuck])
    = Returned (s', ({| Requeue := false; RequeueAfter := 0 |}, None)) /\
    calls s' = [CallDeleteDashboardByUID "stuck"] /\
    HasDashboard (config s') "ns1" "s" = None /\
    HasPlugins (config s') "ns1" "s" = None.
Proof.
  split; [reflexivity|].
  destruct (@delete_set_entries_are_removed_even_on_failure _ _ _ _ "ok"
              (reconciler [da] ready) api resync [da]
              (store [knownA; knownStuck]) eq_refl) as (s' & E & C & Gone).
  { intros d g Hin. vm_compute in Hin. destruct Hin as [<-|[]].
    split; discriminate. }
  exists s'. split; [exact E|]. split; [exact C|].
  apply (Gone knownStuck). vm_compute. now left.
Defined.

Lemma failed_delete_with_nil_status_panics_witness :
  reconcileDashboards "ok" (reconciler [da] ready) resync api
    (store [knownA; knownLost])
  = Panicked nilDereference.
Proof.
  apply (@failed_delete_with_nil_status_panics _ _ _ _ "ok"
           (reconciler [da] ready) api resync [da] (store [knownA; knownLost])
           knownLost [] {| Status := None; Message := None |}
           (ErrOther "connection refused") []).
  - reflexivity.
  - reflexivity.
  - reflexivity.
  - left. reflexivity.
Defined.

Lemma Reconcile_not_ready_is_noop_witness :
  Reconcile delay "ok" (reconciler [da] notReady) resync (store [knownA])
  = Returned (store [knownA], ({| Requeue := false; RequeueAfter := 0 |}, None)) /\
  delayedRequeue {| Requeue := false; RequeueAfter := 0 |} = false.
Proof.
  apply (@Reconcile_not_ready_is_noop _ _ _ _ delay "ok"
           (reconciler [da] notReady) resync (store [knownA])).
  reflexivity.
Defined.

(** With the readiness flag false the result of [Reconcile] is not a delayed
    requeue. *)
Lemma Reconcile_not_ready_not_delayed :
  GrafanaReady (state (reconciler [da] notReady)) = false /\
  exists s' res err,
    Reconcile delay "ok" (reconciler [da] notReady) resync (store [knownA])
    = Returned (s', (res, err)) /\
    delayedRequeue res = false.
Proof.
  split; [reflexivity|].
  exists (store [knownA]), {| Requeue := false; RequeueAfter := 0 |}, None.
  split; reflexivity.
Qed.
(** The fold-in example of the spec: the registry knows [a] and [b], the
    namespace holds [a] (unchanged) and [c] (new).  [b] is deleted, [a] is
    not written, [c] is created and registered. *)
Example fold_in_example :
  match reconcileDashboards "ok" (reconciler [da; dc] ready)
          resync api
          (store [ref "ns1" "a" "a" "hash1"; ref "ns1" "b" "b" "hash2"]) with
  | Returned (s, (res, err)) =>
      calls s = [CallGetOrCreateNamespaceFolder "ns1";
                 sent "hash3" 7;
                 CallDeleteDashboardByUID "b"]
      /\ Dashboards (config s)
         = [ref "ns1" "a" "a" "hash1"; ref "ns1" "c" "c" "hash3"]
      /\ DashboardsSynced (config s) = true
      /\ res = {| Requeue := false; RequeueAfter := 0 |} /\ err = None
  | Panicked _ => False
  end.
Proof. vm_compute. repeat split. Qed.

(** Partial failure: of three dashboards, the second is refused by Grafana;
    the other two are submitted, registered and reported. *)
Example three_dashboards_one_refused :
  match reconcileDashboards "ok" (reconciler [da; dreject; dc] ready)
          resync api (store []) with
  | Returned (s, _) =>
      calls s = [CallGetOrCreateNamespaceFolder "ns1"; sent "hash1" 7;
                 CallGetOrCreateNamespaceFolder "ns1"; sent "reject" 7;
                 CallGetOrCreateNamespaceFolder "ns1"; sent "hash3" 7]
      /\ map RefName (Dashboards (config s)) = ["a"; "c"]
      /\ map EvType (recorder s) = ["Normal"; "Warning"; "Normal"]
      /\ grafana s = ["hash3"; "hash1"]
  | Panicked _ => False
  end.
Proof. vm_compute. repeat split. Qed.

(** The namespace selector asks for [env=prod]; the dashboard lives in
    [staging] and matches the dashboard selector: it is neither created nor
    deleted. *)
Example staging_dashboard_is_skipped :
  reconcileDashboards "ok" (reconciler [dstaging] prodOnly)
    {| ReqNamespace := "staging"; ReqName := "" |} api (store [])
  = Returned (withConfig (store []) (MarkDashboardsSynced (config (store []))),
              ({| Requeue := false; RequeueAfter := 0 |}, None)).
Proof. reflexivity. Qed.

(** A dashboard outside the selectors is left alone, and a request for it
    ends without a pass. *)
Example out_of_scope_request :
  Reconcile delay "ok" (reconciler [da; dother] ready)
    {| ReqNamespace := "ns1"; ReqName := "o" |} (store [])
  = Returned (store [], ({| Requeue := false; RequeueAfter := 0 |}, None)).
Proof. reflexivity. Qed.

(** ** Further runs *)

Lemma Reconcile_without_credentials_witness :
  Reconcile delay "ok" (reconciler [da] noPassword) resync (store [knownA])
  = Returned (store [knownA],
              ({| Requeue := false; RequeueAfter := delay |}, None)).
Proof.
  apply (@Reconcile_without_credentials _ _ _ _ delay "ok"
           (reconciler [da] noPassword) resync (store [knownA])).
  - reflexivity.
  - right. right. reflexivity.
Defined.

Lemma reconcileDashboards_error_iff_listing_failed_witness :
  exists s' res err,
    reconcileDashboards "ok" (reconciler [da; dreject] ready) resync api
      (store [knownA])
    = Returned (s', (res, err)) /\
    res = {| Requeue := false; RequeueAfter := 0 |} /\
    (forall e,
       err = Some e <->
       ListDashboards (client (reconciler [da; dreject] ready))
         (ReqNamespace resync) = Err e) /\
    (err <> None -> s' = store [knownA]) /\
    (err = None -> DashboardsSynced (config s') = true).
Proof.
  eexists _, _, _. split; [reflexivity|].
  apply (@reconcileDashboards_error_iff_listing_failed _ _ _ _ "ok"
           (reconciler [da; dreject] ready) resync api (store [knownA])).
  reflexivity.
Defined.

Lemma Reconcile_result_shape_witness :
  exists s' res err,
    Reconcile delay "ok" (reconciler [da; dc] ready)
      {| ReqNamespace := "ns1"; ReqName := "c" |} (store [knownA])
    = Returned (s', (res, err)) /\
    Requeue res = false /\
    (RequeueAfter res = 0%Z \/
     (RequeueAfter res = delay /\ err = None /\ s' = store [knownA])) /\
    (err <> None -> s' = store [knownA]).
Proof.
  eexists _, _, _. split; [reflexivity|].
  apply (@Reconcile_result_shape _ _ _ _ delay "ok" (reconciler [da; dc] ready)
           {| ReqNamespace := "ns1"; ReqName := "c" |} (store [knownA])).
  reflexivity.
Defined.

Lemma pass_with_nothing_in_scope_witness :
  reconcileDashboards "ok" (reconciler [da] noSelectors) resync api
    (store [knownA; knownB])
  = (s1 <- deleteDashboards api
             (collectToDelete [da]
                (GetDashboards (config (store [knownA; knownB]))
                   (ReqNamespace resync)) [])
             (store [knownA; knownB]) ;;
     Returned (withConfig s1 (MarkDashboardsSynced (config s1)),
               ({| Requeue := false; RequeueAfter := 0 |}, None))).
Proof.
  apply (@pass_with_nothing_in_scope _ _ _ _ "ok" (reconciler [da] noSelectors)
           resync api [da] (store [knownA; knownB])).
  - reflexivity.
  - left. reflexivity.
Defined.

Lemma submitted_hash_is_next_known_hash_witness :
  findHash
    (GetDashboards
       (config (applyDashboard "ok" (reconciler [dc] ready) api [] (store []) dc))
       (Namespace dc))
    dc
  = "hash3".
Proof.
  apply (@submitted_hash_is_next_known_hash _ _ _ _ "ok" (reconciler [dc] ready)
           api [] (store []) dc (withStatus dc "hash3") dc
           (answer "success" "saved")).
  - split; [reflexivity|]. do 4 eexists. repeat split; reflexivity.
  - reflexivity.
  - reflexivity.
Defined.

Lemma returned_pass_delete_effects_witness :
  exists s' out,
    reconcileDashboards "ok" (reconciler [da] ready) resync api
      (store [knownA; knownB])
    = Returned (s', out) /\
    calls s' = [CallDeleteDashboardByUID "b"] /\
    recorder s' = [] /\
    HasDashboard (config s') "ns1" "b" = None /\
    HasDashboard (config s') "ns1" "a" = Some knownA.
Proof.
  destruct (reconcileDashboards "ok" (reconciler [da] ready) resync api
              (store [knownA; knownB])) as [[s' out]|why] eqn:E;
    [|vm_compute in E; discriminate E].
  exists s', out. split; [reflexivity|].
  destruct (@returned_pass_delete_effects _ _ _ _ "ok" (reconciler [da] ready)
              resync api [da] (store [knownA; knownB]) s' out eq_refl E)
    as (C & R & K).
  split; [exact C|]. split; [exact R|].
  split; [exact (K "ns1" "b") | exact (K "ns1" "a")].
Defined.

Lemma pass_keeps_other_entries_witness :
  exists s' out,
    reconcileDashboards "ok" (reconciler [da; dother] ready) resync api
      (store [knownA; ref "ns1" "o" "o" "hash4"; knownB])
    = Returned (s', out) /\
    HasDashboard (config s') "ns1" "o" <> None.
Proof.
  destruct (reconcileDashboards "ok" (reconciler [da; dother] ready) resync api
              (store [knownA; ref "ns1" "o" "o" "hash4"; knownB]))
    as [[s' out]|why] eqn:E; [|vm_compute in E; discriminate E].
  exists s', out. split; [reflexivity|].
  apply (@pass_keeps_other_entries _ _ _ _ "ok" (reconciler [da; dother] ready)
           resync api [da; dother]
           (store [knownA; ref "ns1" "o" "o" "hash4"; knownB]) s' out "ns1" "o").
  - reflexivity.
  - exact E.
  - right. exists dother. simpl. auto.
  - discriminate.
Defined.

Lemma Reconcile_deletes_vanished_dashboard_witness :
  exists s' out,
    Reconcile delay "ok" (reconciler [da] ready)
      {| ReqNamespace := "ns1"; ReqName := "b" |} (store [knownA; knownB])
    = Returned (s', out) /\
    In (CallDeleteDashboardByUID (RefUID knownB)) (calls s') /\
    HasDashboard (config s') "ns1" "b" = None /\
    out = ({| Requeue := false; RequeueAfter := 0 |}, None).
Proof.
  eexists _, _. split; [reflexivity|].
  apply (@Reconcile_deletes_vanished_dashboard _ _ _ _ delay "ok"
           (reconciler [da] ready) {| ReqNamespace := "ns1"; ReqName := "b" |}
           (store [knownA; knownB]) _ _ [MatchLabels app]
           (ErrNotFound "dashboard not found") [da] knownB).
  - reflexivity.
  - discriminate.
  - discriminate.
  - discriminate.
  - reflexivity.
  - reflexivity.
  - reflexivity.
  - reflexivity.
  - intros d [<-|[]] [H _]. discriminate.
  - simpl. auto.
  - reflexivity.
  - reflexivity.
  - reflexivity.
Defined.

Lemma resync_does_not_wait_for_selectors_witness :
  Reconcile delay "ok" (reconciler [da] noSelectors)
    {| ReqNamespace := "ns1"; ReqName := "a" |} (store [knownA; knownB])
  = Returned (store [knownA; knownB],
              ({| Requeue := false; RequeueAfter := delay |}, None)) /\
  exists s',
    sendEmptyRequest delay "ok" (reconciler [da] noSelectors) "ns1"
      (store [knownA; knownB])
    = Returned s' /\
    calls s' = [CallDeleteDashboardByUID "b"] /\
    recorder s' = [] /\
    DashboardsSynced (config s') = true.
Proof.
  destruct (@resync_does_not_wait_for_selectors _ _ _ _ delay "ok"
              (reconciler [da] noSelectors) "ns1" [da] (store [knownA; knownB])
              api eq_refl eq_refl eq_refl eq_refl) as [Hnamed Hresync].
  split.
  - apply Hnamed. discriminate.
  - rewrite Hresync. eexists. split; [reflexivity|]. repeat split.
Defined.
